(** * Recovery Metrics Engine: index computation, time-series aggregation,
    regression-based recovery estimation and the event-time scan.

    A shallow embedding of [satellite_data_processor_v2.py] and
    [satellite_data_processor_v3.py].

    Numbers.  A float64 cell is modelled by an exact rational or
    not-a-number: rounding, overflow, infinities and signed zeros are not
    modelled.  Every comparison with not-a-number is false, every arithmetic
    operation on it gives not-a-number.  Bands of unsigned 16-bit integers,
    whose arithmetic wraps around, are modelled beside the float64 ones
    ([band]).

    Arrays.  A two-dimensional NumPy array is a shape and a cell function;
    only the cells inside the shape belong to the array. *)

From stdpp Require Import base numbers list strings gmap.
From Stdlib Require Import QArith Qcanon Lqa.

Local Open Scope Qc_scope.

(** ** float64 *)

Module Float.

Inductive float64 : Type :=
  | NaN
  | Fin (q : Qc).

#[global] Instance float64_eq_dec : EqDecision float64.
Proof. solve_decision. Defined.

Definition of_Z (z : Z) : float64 := Fin (Q2Qc (inject_Z z)).
Definition of_nat (n : nat) : float64 := of_Z (Z.of_nat n).

(** Decimal literals of the source. *)
Definition lit_0_9 : float64 := Fin (Q2Qc (9 # 10)).
Definition lit_0_6 : float64 := Fin (Q2Qc (6 # 10)).
Definition lit_0 : float64 := Fin 0.
Definition lit_100 : float64 := Fin (Q2Qc 100).

Definition lift2 (f : Qc → Qc → Qc) (x y : float64) : float64 :=
  match x, y with
  | Fin a, Fin b => Fin (f a b)
  | _, _ => NaN
  end.

Definition add : float64 → float64 → float64 := lift2 Qcplus.
Definition sub : float64 → float64 → float64 := lift2 Qcminus.
Definition mul : float64 → float64 → float64 := lift2 Qcmult.

(** [x / y].  IEEE gives an infinity (or not-a-number for 0/0) on a zero
    divisor; infinities are outside this model, and every division of the
    modelled functions is guarded against a zero divisor, so that case is
    never reached by them.  It is mapped to not-a-number here. *)
Definition div (x y : float64) : float64 :=
  match x, y with
  | Fin a, Fin b => if decide (b = 0) then NaN else Fin (a / b)
  | _, _ => NaN
  end.

(** [x == y], [x < y], [x <= y], [x > y], [x >= y]: false on not-a-number. *)
Definition eqb (x y : float64) : bool :=
  match x, y with
  | Fin a, Fin b => bool_decide (a = b)
  | _, _ => false
  end.

Definition ltb (x y : float64) : bool :=
  match x, y with
  | Fin a, Fin b => bool_decide (a < b)
  | _, _ => false
  end.

Definition leb (x y : float64) : bool :=
  match x, y with
  | Fin a, Fin b => bool_decide (a <= b)
  | _, _ => false
  end.

Definition gtb (x y : float64) : bool := ltb y x.
Definition geb (x y : float64) : bool := leb y x.

Definition is_nan (x : float64) : bool :=
  match x with NaN => true | Fin _ => false end.

(** Python's built-in [min(a, b)]: [b] when [b < a], otherwise [a]. *)
Definition py_min (a b : float64) : float64 := if ltb b a then b else a.

End Float.

Import Float.

(** ** NumPy arrays *)

Record ndarray (A : Type) : Type := NDArray {
  nrows : nat;
  ncols : nat;
  cell : nat → nat → A
}.
Arguments NDArray {A} _ _ _.
Arguments nrows {A} _.
Arguments ncols {A} _.
Arguments cell {A} _ _ _.

Definition shape {A} (a : ndarray A) : nat * nat := (nrows a, ncols a).

Definition in_shape {A} (a : ndarray A) (r c : nat) : Prop :=
  (r < nrows a)%nat ∧ (c < ncols a)%nat.

(** [np.full((h, w), v)] and [np.zeros((h, w))]. *)
Definition np_full {A} (h w : nat) (v : A) : ndarray A :=
  NDArray h w (λ _ _, v).

(** An element-wise unary operation or a comparison with a scalar. *)
Definition arr_map {A B} (f : A → B) (a : ndarray A) : ndarray B :=
  NDArray (nrows a) (ncols a) (λ r c, f (cell a r c)).

(** An element-wise binary operation on two arrays of one shape (NumPy
    broadcasts or raises when the shapes differ: the callers pass arrays of
    one shape, and the theorems assume it). *)
Definition arr_map2 {A B C} (f : A → B → C) (a : ndarray A) (b : ndarray B)
    : ndarray C :=
  NDArray (nrows a) (ncols a) (λ r c, f (cell a r c) (cell b r c)).

(** [np.where(cond, v, a)] with a scalar [v]. *)
Definition np_where {A} (cond : ndarray bool) (v : A) (a : ndarray A)
    : ndarray A :=
  NDArray (nrows a) (ncols a)
    (λ r c, if cell cond r c then v else cell a r c).

(** [a[r0:r1, c0:c1] = v]: the slice is clipped to the shape. *)
Definition slice_assign {A} (a : ndarray A) (r0 r1 c0 c1 : nat) (v : A)
    : ndarray A :=
  NDArray (nrows a) (ncols a)
    (λ r c, if bool_decide (r0 ≤ r < r1 ∧ c0 ≤ c < c1)%nat
            then v else cell a r c).

(** [a[m] = v] for a boolean array [m]. *)
Definition mask_assign {A} (a : ndarray A) (m : ndarray bool) (v : A)
    : ndarray A :=
  NDArray (nrows a) (ncols a)
    (λ r c, if cell m r c then v else cell a r c).

(** The positions of an [h] by [w] array in row-major order. *)
Definition pixels (h w : nat) : list (nat * nat) :=
  r ← seq 0 h; c ← seq 0 w; [(r, c)].

(** [a[m]]: the cells at the true positions of [m], in row-major order. *)
Definition mask_select {A} (a : ndarray A) (m : ndarray bool) : list A :=
  (λ p, cell a p.1 p.2) <$> filter (λ p, cell m p.1 p.2 = true)
                                   (pixels (nrows a) (ncols a)).

(** ** Index calculator ([satellite_data_processor_v2.py]) *)

(** [calculate_ndvi] and [calculate_ndwi] on float64 bands; the functions
    on bands of either dtype are [calculate_ndvi_dtype] and
    [calculate_ndwi_dtype] below. *)
Definition calculate_ndvi (red_band nir_band : ndarray float64)
    : ndarray float64 :=
  let denominator := arr_map2 add nir_band red_band in
  let denominator :=
    np_where (arr_map (λ d, eqb d lit_0) denominator) NaN denominator in
  let ndvi := arr_map2 div (arr_map2 sub nir_band red_band) denominator in
  ndvi.

Definition calculate_ndwi (green_band nir_band : ndarray float64)
    : ndarray float64 :=
  let denominator := arr_map2 add green_band nir_band in
  let denominator :=
    np_where (arr_map (λ d, eqb d lit_0) denominator) NaN denominator in
  let ndwi := arr_map2 div (arr_map2 sub green_band nir_band) denominator in
  ndwi.

(** [calculate_radar_backscatter] returns the RadarMetrics bundle; the
    aggregator reads only its ['vv_db'] entry, which is the [vv_band] input
    unchanged. *)
Record RadarMetrics : Type := mkRadarMetrics {
  vv_db : ndarray float64;
  vh_db : ndarray float64;
  vv_linear : ndarray float64;
  vh_linear : ndarray float64;
  cross_ratio : ndarray float64
}.

(** ** Time-series aggregator *)

(** A [datetime] is its count of microseconds on the proleptic calendar;
    [(d - f).days] is the floor of the difference in days, as [timedelta]
    normalises it. *)
Definition datetime : Type := Z.

Definition microseconds_per_day : Z := 86400 * 1000000.

Definition timedelta_days (d f : datetime) : Z :=
  ((d - f) / microseconds_per_day)%Z.

Definition datetime_geb (d f : datetime) : bool := (f <=? d)%Z.

(** One row of the returned data frame. *)
Record TimeSeriesRecord : Type := mkRecord {
  date : datetime;
  mean_ndvi : float64;
  std_ndvi : float64;
  mean_ndwi : option float64;
  mean_vv_backscatter : option float64
}.

Inductive exception : Type :=
  | ValueError (msg : string).

Section Aggregator.

(** [np.nanmean] and [np.nanstd] are NumPy's reductions; they return a
    float for every array (not-a-number, with a warning, when no cell is
    a number). *)
Variable nanmean : ndarray float64 → float64.
Variable nanstd : ndarray float64 → float64.

(** The body of the loop for acquisition [i]: [None] when [i] is beyond
    [ndvi_series], where the loop appends nothing.  An absent optional
    entry is Python's [None] (or an empty dictionary, for the radar). *)
Definition time_step_record
    (ndvi_series : list (ndarray float64))
    (ndwi_series : list (option (ndarray float64)))
    (radar_series : list (option RadarMetrics))
    (i : nat) (d : datetime) : option TimeSeriesRecord :=
  if bool_decide (i < length ndvi_series)%nat then
    ndvi ← ndvi_series !! i;
    let ndwi := if bool_decide (i < length ndwi_series)%nat
                then mjoin (ndwi_series !! i) else None in
    let radar := if bool_decide (i < length radar_series)%nat
                 then mjoin (radar_series !! i) else None in
    let mean_ndvi := nanmean ndvi in
    let std_ndvi := nanstd ndvi in
    Some {| date := d;
            mean_ndvi := mean_ndvi;
            std_ndvi := std_ndvi;
            mean_ndwi := nanmean <$> ndwi;
            mean_vv_backscatter := (λ r, nanmean (vv_db r)) <$> radar |}
  else None.

Definition process_time_series
    (dates : list datetime)
    (ndvi_series : list (ndarray float64))
    (ndwi_series : list (option (ndarray float64)))
    (radar_series : list (option RadarMetrics))
    : exception + list TimeSeriesRecord :=
  if bool_decide (dates = []) || bool_decide (ndvi_series = []) then
    inl (ValueError "Time series data cannot be empty")
  else
    let results :=
      omap id (imap (time_step_record ndvi_series ndwi_series radar_series)
                    dates) in
    inr results.

End Aggregator.

(** ** Recovery rate estimator *)

(** A value stored in the returned dictionary: [None] or a number (the
    integers 100 and 0 that [min(100, ...)] and [else 0] can give are kept
    as the floats of the same value). *)
Inductive pyvalue : Type :=
  | PyNone
  | PyFloat (x : float64).

#[global] Instance pyvalue_eq_dec : EqDecision pyvalue.
Proof. solve_decision. Defined.

Section RecoveryRate.

(** [np.polyfit(x, y, 1)[0]]: the least-squares slope, computed by NumPy;
    called on at least two points. *)
Variable polyfit_slope : list Z → list float64 → float64.

Definition post_flood_of (ndvi_time_series : list TimeSeriesRecord)
    (flood_date : datetime) : list TimeSeriesRecord :=
  filter (λ r, datetime_geb (date r) flood_date = true) ndvi_time_series.

Definition recovery_rate_of (post_flood : list TimeSeriesRecord)
    (flood_date : datetime) : float64 :=
  if bool_decide (1 < length post_flood)%nat then
    let days_since_flood :=
      (λ r, timedelta_days (date r) flood_date) <$> post_flood in
    polyfit_slope days_since_flood (mean_ndvi <$> post_flood)
  else lit_0.

(** [min(100, (current_ndvi / baseline_ndvi) * 100) if baseline_ndvi > 0
    else 0] *)
Definition recovery_percentage_of (baseline_ndvi current_ndvi : float64)
    : float64 :=
  if gtb baseline_ndvi lit_0
  then py_min lit_100 (mul (div current_ndvi baseline_ndvi) lit_100)
  else lit_0.

Definition days_to_recovery_of
    (baseline_ndvi current_ndvi recovery_rate : float64) : pyvalue :=
  if gtb recovery_rate lit_0 && ltb current_ndvi baseline_ndvi
  then PyFloat (div (sub baseline_ndvi current_ndvi) recovery_rate)
  else PyNone.

(** The part of [calculate_recovery_metrics] after the empty-subset guard,
    with the baseline as a parameter: [current_ndvi] is the last
    post-flood record [last_record]. *)
Definition recovery_metrics_of (baseline_ndvi : float64)
    (post_flood : list TimeSeriesRecord) (last_record : TimeSeriesRecord)
    (flood_date : datetime) : gmap string pyvalue :=
  let recovery_rate := recovery_rate_of post_flood flood_date in
  let current_ndvi := mean_ndvi last_record in
  let recovery_percentage :=
    recovery_percentage_of baseline_ndvi current_ndvi in
  let days_to_recovery :=
    days_to_recovery_of baseline_ndvi current_ndvi recovery_rate in
  <["recovery_rate" := PyFloat recovery_rate]>
  (<["time_to_recovery_days" := days_to_recovery]>
  (<["recovery_percentage" := PyFloat recovery_percentage]>
  (<["current_ndvi" := PyFloat current_ndvi]>
  (<["baseline_ndvi" := PyFloat baseline_ndvi]> ∅)))).

(** [last post_flood] is [None] exactly when [len(post_flood) == 0], the
    branch of the guard; otherwise it is the row [post_flood.iloc[-1]]. *)
Definition calculate_recovery_metrics
    (ndvi_time_series : list TimeSeriesRecord) (flood_date : datetime)
    : gmap string pyvalue :=
  let post_flood := post_flood_of ndvi_time_series flood_date in
  match last post_flood with
  | None =>
      <["recovery_rate" := PyFloat lit_0]>
      (<["time_to_recovery_days" := PyNone]>
      (<["recovery_percentage" := PyFloat lit_0]> ∅))
  | Some last_record =>
      let baseline_ndvi := lit_0_6 in
      recovery_metrics_of baseline_ndvi post_flood last_record flood_date
  end.

End RecoveryRate.

(** The least-squares slope in exact arithmetic,
    [(n Σxy − Σx Σy) / (n Σx² − (Σx)²)]: what [np.polyfit(x, y, 1)[0]]
    approximates on points with at least two distinct abscissae.  It is the
    instance of [polyfit_slope] used in the examples. *)
Definition fsum (l : list float64) : float64 := foldr add lit_0 l.

Definition ols_slope (xs : list Z) (ys : list float64) : float64 :=
  let fx := of_Z <$> xs in
  let n := of_nat (length xs) in
  let sx := fsum fx in
  let sy := fsum ys in
  let sxy := fsum (zip_with mul fx ys) in
  let sxx := fsum (zip_with mul fx fx) in
  div (sub (mul n sxy) (mul sx sy)) (sub (mul n sxx) (mul sx sx)).

(** ** Event-time scan and survival analysis
    ([satellite_data_processor_v3.py]) *)

(** The three-dimensional [ndvi_stack], of shape
    [(time_steps, height, width)]. *)
Record ndarray3 : Type := NDArray3 {
  time_steps : nat;
  height : nat;
  width : nat;
  voxel : nat → nat → nat → float64
}.

(** [ndvi_stack[step]] *)
Definition frame (ndvi_stack : ndarray3) (step : nat) : ndarray float64 :=
  NDArray (height ndvi_stack) (width ndvi_stack) (voxel ndvi_stack step).

(** [median_survival_time_]: a time of the fit's timeline, or infinity when
    the estimated survival never reaches one half. *)
Inductive median_time : Type :=
  | MedianAt (t : nat)
  | MedianInf.

Definition median_le (a b : median_time) : Prop :=
  match a, b with
  | MedianAt x, MedianAt y => (x ≤ y)%nat
  | _, MedianInf => True
  | MedianInf, MedianAt _ => False
  end.

(** A fitter object: what [median_survival_time_] is after
    [fit(durations, event_observed=events)]. *)
Definition KaplanMeierFitter : Type := list nat → list Z → median_time.

(** One call of [kmf.fit]. *)
Record fit_call : Type := FitCall {
  fit_durations : list nat;
  fit_events : list Z
}.

Record SurvivalMetrics : Type := mkSurvivalMetrics {
  median_recovery_time : median_time;
  confidence_score : float64;
  recovery_map : ndarray nat
}.

(** [np.mean] of an integer array. *)
Definition np_mean (l : list Z) : float64 :=
  div (of_Z (foldr Z.add 0%Z l)) (of_nat (length l)).

(** [flood_mask = np.zeros((height, width), dtype=bool);
     flood_mask[150:350, 150:350] = True] *)
Definition make_flood_mask (height width : nat) : ndarray bool :=
  slice_assign (np_full height width false) 150 350 150 350 true.

(** The state of the scan: [t_matrix] (dtype float, holding only the
    integers [time_steps] and [step + 1], kept as naturals) and [e_matrix]
    (dtype int). *)
Definition scan_state : Type := ndarray nat * ndarray Z.

(** One iteration of [for step in range(time_steps)]. *)
Definition scan_step (ndvi_stack : ndarray3)
    (recovery_threshold : ndarray float64) (flood_mask : ndarray bool)
    (st : scan_state) (step : nat) : scan_state :=
  let t_matrix := st.1 in
  let e_matrix := st.2 in
  let current_ndvi := frame ndvi_stack step in
  let is_healed := arr_map2 geb current_ndvi recovery_threshold in
  let newly_healed :=
    arr_map2 andb
      (arr_map2 andb is_healed (arr_map (λ e, (e =? 0)%Z) e_matrix))
      flood_mask in
  (mask_assign t_matrix newly_healed (step + 1)%nat,
   mask_assign e_matrix newly_healed 1%Z).

Definition scan_init (ndvi_stack : ndarray3) : scan_state :=
  (np_full (height ndvi_stack) (width ndvi_stack) (time_steps ndvi_stack),
   np_full (height ndvi_stack) (width ndvi_stack) 0%Z).

(** The state after the first [n] iterations of the loop. *)
Definition scan_steps (ndvi_stack : ndarray3)
    (recovery_threshold : ndarray float64) (flood_mask : ndarray bool)
    (n : nat) : scan_state :=
  fold_left (scan_step ndvi_stack recovery_threshold flood_mask)
            (seq 0 n) (scan_init ndvi_stack).

(** The whole loop. *)
Definition event_time_scan (ndvi_stack : ndarray3)
    (recovery_threshold : ndarray float64) (flood_mask : ndarray bool)
    : scan_state :=
  scan_steps ndvi_stack recovery_threshold flood_mask (time_steps ndvi_stack).

(** [run_survival_analysis] from the point where [recovery_threshold] is
    known.  The second component logs the calls of [kmf.fit]. *)
Definition survival_of_threshold (kmf : KaplanMeierFitter)
    (ndvi_stack : ndarray3) (recovery_threshold : ndarray float64)
    : SurvivalMetrics * list fit_call :=
  let flood_mask :=
    make_flood_mask (height ndvi_stack) (width ndvi_stack) in
  let st := event_time_scan ndvi_stack recovery_threshold flood_mask in
  let t_matrix := st.1 in
  let e_matrix := st.2 in
  let flooded_t := mask_select t_matrix flood_mask in
  let flooded_e := mask_select e_matrix flood_mask in
  if bool_decide (0 < length flooded_t)%nat then
    ({| median_recovery_time := kmf flooded_t flooded_e;
        confidence_score := mul (np_mean flooded_e) lit_100;
        recovery_map := t_matrix |},
     [FitCall flooded_t flooded_e])
  else
    ({| median_recovery_time := MedianAt 0;
        confidence_score := lit_0;
        recovery_map := t_matrix |},
     []).

(** [self.kmf] is [None] when the lifelines import failed. *)
Definition run_survival_analysis (kmf : option KaplanMeierFitter)
    (ndvi_stack : ndarray3) (baseline_ndvi : ndarray float64)
    : option SurvivalMetrics * list fit_call :=
  match kmf with
  | None => (None, [])
  | Some fitter =>
      let recovery_threshold := arr_map (λ b, mul b lit_0_9) baseline_ndvi in
      let res := survival_of_threshold fitter ndvi_stack recovery_threshold in
      (Some res.1, res.2)
  end.

(** [is_healed[r, c]] at [step]. *)
Definition pixel_healed (ndvi_stack : ndarray3)
    (recovery_threshold : ndarray float64) (r c step : nat) : bool :=
  geb (voxel ndvi_stack step r c) (cell recovery_threshold r c).

(** The first of the steps [0 .. n-1] at which the pixel is healed. *)
Definition first_healed (ndvi_stack : ndarray3)
    (recovery_threshold : ndarray float64) (r c n : nat) : option nat :=
  find (pixel_healed ndvi_stack recovery_threshold r c) (seq 0 n).

(** The (duration, event) pair of a masked pixel after the whole scan, as
    the first healed step decides it. *)
Definition pixel_observation (ndvi_stack : ndarray3)
    (thr : ndarray float64) (p : nat * nat) : nat * Z :=
  let first := first_healed ndvi_stack thr p.1 p.2 (time_steps ndvi_stack) in
  (from_option S (time_steps ndvi_stack) first,
   from_option (λ _, 1%Z) 0%Z first).

(** The positions inside the flood mask, in row-major order, and the
    counts that the confidence score is about. *)
Definition masked_pixels (flood_mask : ndarray bool) (h w : nat)
    : list (nat * nat) :=
  filter (λ p, cell flood_mask p.1 p.2 = true) (pixels h w).

Definition masked_count (flood_mask : ndarray bool) (h w : nat) : nat :=
  length (masked_pixels flood_mask h w).

Definition observed_count (flood_mask : ndarray bool) (e_matrix : ndarray Z)
    (h w : nat) : nat :=
  length (filter (λ p, cell flood_mask p.1 p.2 = true
                       ∧ cell e_matrix p.1 p.2 = 1%Z) (pixels h w)).

(** ** The Kaplan-Meier estimator *)

(** Modelled from the spec: the Kaplan-Meier fit is the lifelines library's,
    which is not among the sources.  The spec describes it as the
    non-parametric (product-limit) estimate of the survival function from
    censored (time_to_event, event_observed) pairs, and the median as the
    time at which the estimated survival probability first reaches one half
    or less.  Times are whole steps; at a time with nobody at risk the
    estimate does not change. *)
Definition at_risk (obs : list (nat * Z)) (u : nat) : nat :=
  length (filter (λ o, (u ≤ o.1)%nat) obs).

(** Modelled from the spec: the observed events at time [u] (an event is
    observed when its flag is not 0). *)
Definition events_at (obs : list (nat * Z)) (u : nat) : nat :=
  length (filter (λ o, o.1 = u ∧ o.2 ≠ 0%Z) obs).

Definition Qc_of_nat (n : nat) : Qc := Q2Qc (inject_Z (Z.of_nat n)).

(** Modelled from the spec: the factor [1 − d_u / n_u] of the
    product-limit estimate at time [u]. *)
Definition km_factor (obs : list (nat * Z)) (u : nat) : Qc :=
  if decide (at_risk obs u = 0%nat) then 1
  else 1 - Qc_of_nat (events_at obs u) / Qc_of_nat (at_risk obs u).

(** Modelled from the spec: the estimated survival probability at time
    [t], the product of the factors of the times [0 .. t]. *)
Fixpoint km_survival (obs : list (nat * Z)) (t : nat) : Qc :=
  match t with
  | O => km_factor obs 0
  | S t' => km_survival obs t' * km_factor obs (S t')
  end.

(** Modelled from the spec: the first time, up to the largest duration,
    at which the estimated survival probability is one half or less;
    infinity when there is none. *)
Definition km_median (obs : list (nat * Z)) : median_time :=
  match find (λ t, bool_decide (km_survival obs t <= Q2Qc (1 # 2)))
             (seq 0 (S (max_list obs.*1))) with
  | Some t => MedianAt t
  | None => MedianInf
  end.

(** Modelled from the spec: [KaplanMeierFitter().fit(durations,
    event_observed=events).median_survival_time_]. *)
Definition kaplan_meier : KaplanMeierFitter :=
  λ durations events, km_median (zip durations events).

(** The observations not yet recovered at time [t]: those without an
    observed event at a time up to [t]. *)
Definition unrecovered (obs : list (nat * Z)) (t : nat) : nat :=
  length (filter (λ o, ¬ ((o.1 ≤ t)%nat ∧ o.2 ≠ 0%Z)) obs).

(** What the scan produces: every duration is at most the horizon [T], and
    a censored observation has duration [T]. *)
Definition censored_at_horizon (T : nat) (obs : list (nat * Z)) : Prop :=
  Forall (λ o, (o.1 ≤ T)%nat ∧ (o.2 = 0%Z → o.1 = T)) obs.

(** The five fields of a RecoveryMetrics value. *)
Definition has_all_fields (m : gmap string pyvalue) : Prop :=
  is_Some (m !! "recovery_rate") ∧
  is_Some (m !! "time_to_recovery_days") ∧
  is_Some (m !! "recovery_percentage") ∧
  is_Some (m !! "current_ndvi") ∧
  is_Some (m !! "baseline_ndvi").

(** ** Sample data *)

(** The scenario of the design notes: mean NDVI 0.3, 0.35, 0.4, 0.45 at
    days 0, 30, 60, 90 after the flood. *)
Definition day (n : Z) : datetime := (n * microseconds_per_day)%Z.

Definition sample_record (d : Z) (num den : Z) : TimeSeriesRecord :=
  {| date := day d;
     mean_ndvi := Fin (Q2Qc (Qmake num (Z.to_pos den)));
     std_ndvi := lit_0;
     mean_ndwi := None;
     mean_vv_backscatter := None |}.

Definition sample_series : list TimeSeriesRecord :=
  [sample_record 0 30 100; sample_record 30 35 100;
   sample_record 60 40 100; sample_record 90 45 100].

(** The mean of the cells that are numbers, in exact arithmetic:
    not-a-number when there is none.  It is the instance of [nanmean] used
    in the examples. *)
Definition nanmean_exact (a : ndarray float64) : float64 :=
  let cells :=
    filter (λ v, is_nan v = false)
           ((λ p, cell a p.1 p.2) <$> pixels (nrows a) (ncols a)) in
  div (fsum cells) (of_nat (length cells)).

Definition sample_grid (num den : Z) : ndarray float64 :=
  np_full 2 2 (Fin (Q2Qc (Qmake num (Z.to_pos den)))).

(** The scenario of the design notes for the scan: baseline 0.6
    (threshold 0.54) and three steps with NDVI 0.5 everywhere, then 0.55 on
    the even columns and 0.4 on the odd ones, then 0.6 everywhere.  On a
    152 by 152 grid the flood mask holds the four pixels of rows and
    columns 150 and 151. *)
Definition sample_stack : ndarray3 :=
  {| time_steps := 3; height := 152; width := 152;
     voxel := λ step r c,
       match step with
       | 0%nat => Fin (Q2Qc (50 # 100))
       | 1%nat => if Nat.even c then Fin (Q2Qc (55 # 100))
                  else Fin (Q2Qc (40 # 100))
       | _ => Fin (Q2Qc (60 # 100))
       end |}.

Definition sample_baseline : ndarray float64 :=
  np_full 152 152 (Fin (Q2Qc (60 # 100))).

(** Two threshold grids for [sample_stack]: 0.54 and 0.58. *)
Definition sample_threshold_low : ndarray float64 :=
  np_full 152 152 (Fin (Q2Qc (54 # 100))).

Definition sample_threshold_high : ndarray float64 :=
  np_full 152 152 (Fin (Q2Qc (58 # 100))).

(** ** Data loading, radar metrics and the processing pipelines *)

(** [-x] *)
Definition fneg (x : float64) : float64 :=
  match x with
  | NaN => NaN
  | Fin q => Fin (- q)
  end.

(** A decimal literal. *)
Definition lit (num : Z) (den : positive) : float64 := Fin (Q2Qc (num # den)).

(** The simulated grids are 500 by 500. *)
Definition sim_height : nat := 500.
Definition sim_width : nat := 500.

(** The random arrays that one run of a pipeline draws, in the order of the
    calls: six [np.random.rand(height, width)] arrays (samples of [0, 1))
    for the bands, then one [np.random.normal(0, 0.05, shape)] array per
    time step for the NDVI series and, in V2, one per time step for the
    NDWI series. *)
Record rng_draws : Type := RngDraws {
  rand_red : ndarray float64;
  rand_nir : ndarray float64;
  rand_swir : ndarray float64;
  rand_green : ndarray float64;
  rand_vv : ndarray float64;
  rand_vh : ndarray float64;
  normal_ndvi : nat → ndarray float64;
  normal_ndwi : nat → ndarray float64
}.

(** Every sample of a [np.random.rand] array is a number of [0, 1). *)
Definition unit_samples (a : ndarray float64) : Prop :=
  ∀ r c, ∃ u, cell a r c = Fin u ∧ 0 <= u ∧ u < 1.

(** A drawn array, in the requested shape. *)
Definition drawn (h w : nat) (draw : ndarray float64) : ndarray float64 :=
  NDArray h w (cell draw).

(** [np.random.rand(height, width) * a + b] *)
Definition simulate_band (draw : ndarray float64) (a b : float64)
    : ndarray float64 :=
  arr_map (λ u, add (mul u a) b) (drawn sim_height sim_width draw).

Record Sentinel2Data : Type := mkSentinel2Data {
  s2_red : option (ndarray float64);
  s2_nir : option (ndarray float64);
  s2_swir : option (ndarray float64);
  s2_green : option (ndarray float64)
}.

Record SimulatedBands : Type := mkSimulatedBands {
  sim_red : ndarray float64;
  sim_nir : ndarray float64;
  sim_swir : ndarray float64;
  sim_green : ndarray float64
}.

(** The branch [if red_band is None or nir_band is None] of
    [load_sentinel2_data]. *)
Definition simulated_sentinel2 (rng : rng_draws) : SimulatedBands :=
  {| sim_red := simulate_band (rand_red rng) (lit 3 10) (lit 1 10);
     sim_nir := simulate_band (rand_nir rng) (lit 4 10) (lit 3 10);
     sim_swir := simulate_band (rand_swir rng) (lit 3 10) (lit 1 10);
     sim_green := simulate_band (rand_green rng) (lit 3 10) (lit 1 10) |}.

Definition load_sentinel2_data (rng : rng_draws)
    (red_band nir_band swir_band green_band : option (ndarray float64))
    : Sentinel2Data :=
  match red_band, nir_band with
  | Some _, Some _ =>
      {| s2_red := red_band; s2_nir := nir_band;
         s2_swir := swir_band; s2_green := green_band |}
  | _, _ =>
      let sim := simulated_sentinel2 rng in
      {| s2_red := Some (sim_red sim); s2_nir := Some (sim_nir sim);
         s2_swir := Some (sim_swir sim); s2_green := Some (sim_green sim) |}
  end.

Record Sentinel1Data : Type := mkSentinel1Data {
  s1_vv : option (ndarray float64);
  s1_vh : option (ndarray float64)
}.

(** [np.random.rand(height, width) * 35 - 30] *)
Definition simulate_backscatter (draw : ndarray float64) : ndarray float64 :=
  arr_map (λ u, sub (mul u (lit 35 1)) (lit 30 1))
          (drawn sim_height sim_width draw).

Definition load_sentinel1_data (rng : rng_draws)
    (vv_band vh_band : option (ndarray float64)) : Sentinel1Data :=
  match vv_band, vh_band with
  | Some _, Some _ => {| s1_vv := vv_band; s1_vh := vh_band |}
  | _, _ =>
      {| s1_vv := Some (simulate_backscatter (rand_vv rng));
         s1_vh := Some (simulate_backscatter (rand_vh rng)) |}
  end.

(** [range(n)] for a Python integer [n]: empty when [n <= 0]. *)
Definition py_range (n : Z) : list nat := seq 0 (Z.to_nat n).

(** [d + timedelta(days=k)] *)
Definition add_days (d : datetime) (k : Z) : datetime :=
  (d + k * microseconds_per_day)%Z.

(** [[flood_date + timedelta(days=i*30) for i in range(num_time_steps)]] *)
Definition acquisition_dates (flood_date : datetime) (num_time_steps : Z)
    : list datetime :=
  (λ i, add_days flood_date (Z.of_nat i * 30)) <$> py_range num_time_steps.

(** The dictionary that V2's [process_flood_event] stores in
    [self.processed_data] and returns. *)
Record FloodEvent : Type := mkFloodEvent {
  fe_ndvi : ndarray float64;
  fe_ndwi : ndarray float64;
  fe_radar_metrics : RadarMetrics;
  fe_time_series : list TimeSeriesRecord;
  fe_recovery_metrics : gmap string pyvalue;
  fe_dates : list datetime
}.

(** The dictionary that V3's [process_flood_event_ai] stores and returns. *)
Record FloodEventAI : Type := mkFloodEventAI {
  ai_ndvi : ndarray float64;
  ai_ndwi : ndarray float64;
  ai_time_series : list TimeSeriesRecord;
  ai_recovery_metrics : gmap string pyvalue;
  ai_metrics : option SurvivalMetrics
}.

Section Pipelines.

Variable nanmean : ndarray float64 → float64.
Variable nanstd : ndarray float64 → float64.
Variable polyfit_slope : list Z → list float64 → float64.

(** [10 ** x] on floats: a power with a real exponent, outside the
    rational model. *)
Variable pow10 : float64 → float64.

Definition calculate_radar_backscatter (vv_band vh_band : ndarray float64)
    : RadarMetrics :=
  let vv_linear := arr_map (λ x, pow10 (div x (lit 10 1))) vv_band in
  let vh_linear := arr_map (λ x, pow10 (div x (lit 10 1))) vh_band in
  let cross_ratio :=
    arr_map2 (λ v h, if negb (eqb h lit_0) then div v h else NaN)
             vv_linear vh_linear in
  {| vv_db := vv_band;
     vh_db := vh_band;
     vv_linear := vv_linear;
     vh_linear := vh_linear;
     cross_ratio := cross_ratio |}.

(** [index + np.random.normal(0, 0.05, index.shape) * (i/num_time_steps)] *)
Definition noisy_frame (index : ndarray float64) (noise : ndarray float64)
    (i : nat) (num_time_steps : Z) : ndarray float64 :=
  arr_map2 add index
    (arr_map (λ x, mul x (div (of_nat i) (of_Z num_time_steps)))
             (drawn (nrows index) (ncols index) noise)).

(** V2's [process_flood_event].  [load_sentinel2_data()] and
    [load_sentinel1_data()] are called without bands, so they return the
    simulated ones. *)
Definition process_flood_event (rng : rng_draws) (flood_date : datetime)
    (num_time_steps : Z) : exception + FloodEvent :=
  let s2_data := simulated_sentinel2 rng in
  let vv := simulate_backscatter (rand_vv rng) in
  let vh := simulate_backscatter (rand_vh rng) in
  let ndvi := calculate_ndvi (sim_red s2_data) (sim_nir s2_data) in
  let ndwi := calculate_ndwi (sim_green s2_data) (sim_nir s2_data) in
  let radar_metrics := calculate_radar_backscatter vv vh in
  let dates := acquisition_dates flood_date num_time_steps in
  let ndvi_series :=
    (λ i, noisy_frame ndvi (normal_ndvi rng i) i num_time_steps)
      <$> py_range num_time_steps in
  let ndwi_series :=
    (λ i, noisy_frame ndwi (normal_ndwi rng i) i num_time_steps)
      <$> py_range num_time_steps in
  let radar_series := (λ _, radar_metrics) <$> py_range num_time_steps in
  match process_time_series nanmean nanstd dates ndvi_series
          (Some <$> ndwi_series) (Some <$> radar_series) with
  | inl e => inl e
  | inr time_series_df =>
      let recovery_metrics :=
        calculate_recovery_metrics polyfit_slope time_series_df flood_date in
      inr {| fe_ndvi := ndvi;
             fe_ndwi := ndwi;
             fe_radar_metrics := radar_metrics;
             fe_time_series := time_series_df;
             fe_recovery_metrics := recovery_metrics;
             fe_dates := dates |}
  end.

(** [baseline_ndvi - 0.2 + factor + noise] with
    [factor = (i / num_time_steps) * 0.4] *)
Definition recovery_frame (baseline_ndvi : ndarray float64)
    (noise : ndarray float64) (i : nat) (num_time_steps : Z)
    : ndarray float64 :=
  let factor := mul (div (of_nat i) (of_Z num_time_steps)) (lit 4 10) in
  arr_map2 add
    (arr_map (λ b, add (sub b (lit 2 10)) factor) baseline_ndvi)
    (drawn (nrows baseline_ndvi) (ncols baseline_ndvi) noise).

(** [np.array(ndvi_stack)] for the frames of the steps
    [0 .. num_time_steps-1]. *)
Definition stack_frames (baseline_ndvi : ndarray float64)
    (frame_of : nat → ndarray float64) (num_time_steps : Z) : ndarray3 :=
  {| time_steps := Z.to_nat num_time_steps;
     height := nrows baseline_ndvi;
     width := ncols baseline_ndvi;
     voxel := λ step, cell (frame_of step) |}.

(** V3's [process_flood_event_ai]; the second component logs the calls of
    [kmf.fit]. *)
Definition process_flood_event_ai (kmf : option KaplanMeierFitter)
    (rng : rng_draws) (flood_date : datetime) (num_time_steps : Z)
    : exception + FloodEventAI * list fit_call :=
  let s2_data := simulated_sentinel2 rng in
  let vv := simulate_backscatter (rand_vv rng) in
  let vh := simulate_backscatter (rand_vh rng) in
  let baseline_ndvi := calculate_ndvi (sim_red s2_data) (sim_nir s2_data) in
  let baseline_ndwi := calculate_ndwi (sim_green s2_data) (sim_nir s2_data) in
  let radar_metrics := calculate_radar_backscatter vv vh in
  let dates := acquisition_dates flood_date num_time_steps in
  let frame_of i :=
    recovery_frame baseline_ndvi (normal_ndvi rng i) i num_time_steps in
  let ndvi_series_for_df := frame_of <$> py_range num_time_steps in
  let ndvi_stack := stack_frames baseline_ndvi frame_of num_time_steps in
  match process_time_series nanmean nanstd dates ndvi_series_for_df
          (Some <$> ndvi_series_for_df)
          (Some <$> ((λ _, radar_metrics) <$> py_range num_time_steps)) with
  | inl e => inl e
  | inr time_series_df =>
      let v2_metrics :=
        calculate_recovery_metrics polyfit_slope time_series_df flood_date in
      let ai := run_survival_analysis kmf ndvi_stack baseline_ndvi in
      inr ({| ai_ndvi := baseline_ndvi;
              ai_ndwi := baseline_ndwi;
              ai_time_series := time_series_df;
              ai_recovery_metrics := v2_metrics;
              ai_metrics := ai.1 |}, ai.2)
  end.

End Pipelines.

(** ** Visualizer ([satellite_visualizer.py]) *)

(** The mask of [np.ma.masked_where(recovery_map == 0, recovery_map)]: the
    cells hidden in the heat map. *)
Definition heatmap_hidden (recovery_map : ndarray nat) : ndarray bool :=
  arr_map (λ t, (t =? 0)%nat) recovery_map.

(** Random draws for the examples: every uniform sample is 1/2 and every
    normal sample is 0. *)
Definition sample_rng : rng_draws :=
  {| rand_red := np_full sim_height sim_width (lit 1 2);
     rand_nir := np_full sim_height sim_width (lit 1 2);
     rand_swir := np_full sim_height sim_width (lit 1 2);
     rand_green := np_full sim_height sim_width (lit 1 2);
     rand_vv := np_full sim_height sim_width (lit 1 2);
     rand_vh := np_full sim_height sim_width (lit 1 2);
     normal_ndvi := λ _, np_full sim_height sim_width lit_0;
     normal_ndwi := λ _, np_full sim_height sim_width lit_0 |}.

(** ** Band dtypes *)

(** The index functions compute in the dtype of the bands they are given
    and cast nothing.  Two dtypes reach them in this repository: float64
    (the simulated bands) and unsigned 16-bit integers (the digital numbers
    of the Sentinel-2 band files that the downloader fetches).  A uint16
    cell is an integer of [0, 65536); the sum and the difference of two
    uint16 arrays are uint16 arrays and wrap around. *)
Inductive band : Type :=
  | Float64Band (a : ndarray float64)
  | UInt16Band (a : ndarray Z).

Definition uint16_modulus : Z := 65536.

Definition uint16_add (x y : Z) : Z := ((x + y) mod uint16_modulus)%Z.
Definition uint16_sub (x y : Z) : Z := ((x - y) mod uint16_modulus)%Z.

(** A uint16 array as float64: what NumPy does when the other operand is a
    float64 array or the not-a-number scalar. *)
Definition uint16_to_float (a : ndarray Z) : ndarray float64 :=
  arr_map of_Z a.

(** The body of [calculate_ndvi] on two uint16 bands: [nir_band + red_band]
    and [nir_band - red_band] are uint16, [np.where(..., np.nan, ...)] and
    the quotient are float64. *)
Definition calculate_ndvi_uint16 (red_band nir_band : ndarray Z)
    : ndarray float64 :=
  let denominator := arr_map2 uint16_add nir_band red_band in
  let denominator :=
    np_where (arr_map (λ d, (d =? 0)%Z) denominator) NaN
             (uint16_to_float denominator) in
  let ndvi :=
    arr_map2 div (uint16_to_float (arr_map2 uint16_sub nir_band red_band))
             denominator in
  ndvi.

Definition calculate_ndvi_dtype (red_band nir_band : band)
    : ndarray float64 :=
  match red_band, nir_band with
  | Float64Band red, Float64Band nir => calculate_ndvi red nir
  | UInt16Band red, UInt16Band nir => calculate_ndvi_uint16 red nir
  | Float64Band red, UInt16Band nir => calculate_ndvi red (uint16_to_float nir)
  | UInt16Band red, Float64Band nir => calculate_ndvi (uint16_to_float red) nir
  end.

Definition calculate_ndwi_uint16 (green_band nir_band : ndarray Z)
    : ndarray float64 :=
  let denominator := arr_map2 uint16_add green_band nir_band in
  let denominator :=
    np_where (arr_map (λ d, (d =? 0)%Z) denominator) NaN
             (uint16_to_float denominator) in
  let ndwi :=
    arr_map2 div (uint16_to_float (arr_map2 uint16_sub green_band nir_band))
             denominator in
  ndwi.

Definition calculate_ndwi_dtype (green_band nir_band : band)
    : ndarray float64 :=
  match green_band, nir_band with
  | Float64Band green, Float64Band nir => calculate_ndwi green nir
  | UInt16Band green, UInt16Band nir => calculate_ndwi_uint16 green nir
  | Float64Band green, UInt16Band nir =>
      calculate_ndwi green (uint16_to_float nir)
  | UInt16Band green, Float64Band nir =>
      calculate_ndwi (uint16_to_float green) nir
  end.

(** ** The recovery rate estimator with the failure of the fit *)

Inductive numpy_error : Type :=
  | LinAlgError (msg : string).

Section RecoveryRateRaising.

(** [numpy.linalg.lstsq] on the scaled system that [np.polyfit(x, y, 1)]
    builds, reduced to the slope it yields or the error it raises. *)
Variable lstsq_slope : list Z → list float64 → numpy_error + float64.

(** [np.polyfit(x, y, 1)[0]].  NumPy divides every column of the
    Vandermonde matrix by its norm before it solves; when every abscissa is
    0 the norm of the first column is 0, the division gives not-a-number
    and [lstsq] raises. *)
Definition np_polyfit_slope (xs : list Z) (ys : list float64)
    : numpy_error + float64 :=
  if forallb (λ x, (x =? 0)%Z) xs
  then inl (LinAlgError "SVD did not converge in Linear Least Squares")
  else lstsq_slope xs ys.

Definition recovery_rate_raising (post_flood : list TimeSeriesRecord)
    (flood_date : datetime) : numpy_error + float64 :=
  if bool_decide (1 < length post_flood)%nat then
    let days_since_flood :=
      (λ r, timedelta_days (date r) flood_date) <$> post_flood in
    np_polyfit_slope days_since_flood (mean_ndvi <$> post_flood)
  else inr lit_0.

(** [calculate_recovery_metrics] with the error of the fit: the dictionary
    it returns, or the error that [np.polyfit] raises and nothing
    catches. *)
Definition calculate_recovery_metrics_raising
    (ndvi_time_series : list TimeSeriesRecord) (flood_date : datetime)
    : numpy_error + gmap string pyvalue :=
  let post_flood := post_flood_of ndvi_time_series flood_date in
  match last post_flood with
  | None =>
      inr (<["recovery_rate" := PyFloat lit_0]>
           (<["time_to_recovery_days" := PyNone]>
           (<["recovery_percentage" := PyFloat lit_0]> ∅)))
  | Some last_record =>
      match recovery_rate_raising post_flood flood_date with
      | inl e => inl e
      | inr recovery_rate =>
          let baseline_ndvi := lit_0_6 in
          let current_ndvi := mean_ndvi last_record in
          let recovery_percentage :=
            recovery_percentage_of baseline_ndvi current_ndvi in
          let days_to_recovery :=
            days_to_recovery_of baseline_ndvi current_ndvi recovery_rate in
          inr (<["recovery_rate" := PyFloat recovery_rate]>
               (<["time_to_recovery_days" := days_to_recovery]>
               (<["recovery_percentage" := PyFloat recovery_percentage]>
               (<["current_ndvi" := PyFloat current_ndvi]>
               (<["baseline_ndvi" := PyFloat baseline_ndvi]> ∅)))))
      end
  end.

(** The total fit that agrees with [np_polyfit_slope] wherever it returns. *)
Definition returned_slope (xs : list Z) (ys : list float64) : float64 :=
  match np_polyfit_slope xs ys with
  | inr rate => rate
  | inl _ => NaN
  end.

End RecoveryRateRaising.

(** ** Further sample data *)

(** Two acquisitions on the day of the flood. *)
Definition same_day_series : list TimeSeriesRecord :=
  [sample_record 0 30 100; sample_record 0 35 100].

(** A fit that never raises by itself, for the examples. *)
Definition sample_lstsq (xs : list Z) (ys : list float64)
    : numpy_error + float64 :=
  inr (ols_slope xs ys).

(** A record whose NDVI grid held no number. *)
Definition nan_record (d : Z) : TimeSeriesRecord :=
  {| date := day d;
     mean_ndvi := NaN;
     std_ndvi := NaN;
     mean_ndwi := None;
     mean_vv_backscatter := None |}.

(** One-cell uint16 bands with the digital numbers 3000 and 1000. *)
Definition sample_red_uint16 : ndarray Z := np_full 1 1 3000%Z.
Definition sample_nir_uint16 : ndarray Z := np_full 1 1 1000%Z.

(** * Properties *)

(** Linear goals over the canonical rationals, through [Q]. *)
Ltac qc_lra :=
  unfold Qcdiv, Qcminus in *;
  unfold Qcle, Qclt, Qcplus, Qcopp, Qcmult in *;
  cbn [this Q2Qc] in *;
  rewrite ?Qred_correct in *; lra.

(** ** Index calculator *)

Lemma Qc_sum_pos (x y : Qc) : 0 <= x → 0 <= y → x + y ≠ 0 → 0 < y + x.
Proof.
  intros Hx Hy Hne.
  destruct (Qclt_le_dec 0 (y + x)) as [|Hle]; [done|].
  exfalso. apply Hne. apply Qcle_antisym; qc_lra.
Qed.

Lemma Qc_ratio_cancel (a b : Qc) : 0 < b → a / b * b = a.
Proof. intros Hb. field. intros E. rewrite E in Hb. qc_lra. Qed.

Lemma normalized_difference_range (x y : Qc) :
  0 <= x → 0 <= y → x + y ≠ 0 →
  - (1) <= (y - x) / (y + x) ∧ (y - x) / (y + x) <= 1.
Proof.
  intros Hx Hy Hne.
  pose proof (Qc_sum_pos x y Hx Hy Hne) as Hpos.
  split; apply (Qcmult_lt_0_le_reg_r _ _ (y + x)); try done;
    rewrite Qc_ratio_cancel by done; qc_lra.
Qed.

Lemma Qc_sum_comm_zero (x y : Qc) : y + x = 0 ↔ x + y = 0.
Proof. by rewrite Qcplus_comm. Qed.

(** ** Recovery rate estimator *)

Section RecoveryRateFacts.

Variable polyfit_slope : list Z → list float64 → float64.

Lemma metrics_empty ts fd :
  post_flood_of ts fd = [] →
  calculate_recovery_metrics polyfit_slope ts fd =
    <["recovery_rate" := PyFloat lit_0]>
    (<["time_to_recovery_days" := PyNone]>
    (<["recovery_percentage" := PyFloat lit_0]> ∅)).
Proof. intros E. unfold calculate_recovery_metrics. by rewrite E. Qed.

Lemma metrics_nonempty ts fd :
  post_flood_of ts fd ≠ [] →
  ∃ last_record,
    last (post_flood_of ts fd) = Some last_record ∧
    calculate_recovery_metrics polyfit_slope ts fd =
      recovery_metrics_of polyfit_slope lit_0_6 (post_flood_of ts fd)
                          last_record fd.
Proof.
  intros Hne. unfold calculate_recovery_metrics.
  destruct (last (post_flood_of ts fd)) as [rec|] eqn:E.
  - by exists rec.
  - by apply last_None in E.
Qed.

Lemma recovery_metrics_of_lookup baseline post rec fd :
  let m := recovery_metrics_of polyfit_slope baseline post rec fd in
  m !! "recovery_rate" = Some (PyFloat (recovery_rate_of polyfit_slope post fd)) ∧
  m !! "time_to_recovery_days" =
    Some (days_to_recovery_of baseline (mean_ndvi rec)
            (recovery_rate_of polyfit_slope post fd)) ∧
  m !! "recovery_percentage" =
    Some (PyFloat (recovery_percentage_of baseline (mean_ndvi rec))) ∧
  m !! "current_ndvi" = Some (PyFloat (mean_ndvi rec)) ∧
  m !! "baseline_ndvi" = Some (PyFloat baseline).
Proof. unfold recovery_metrics_of. cbv zeta. by simplify_map_eq. Qed.

(** C2, as amended.  The returned dictionary always holds recovery_rate,
    time_to_recovery_days and recovery_percentage.  It holds current_ndvi
    and baseline_ndvi as well exactly when the post-flood subset is not
    empty; on an empty subset it is exactly
    {recovery_rate: 0, time_to_recovery_days: None, recovery_percentage: 0}. *)
Theorem recovery_metrics_fields ts fd :
  let m := calculate_recovery_metrics polyfit_slope ts fd in
  is_Some (m !! "recovery_rate") ∧
  is_Some (m !! "time_to_recovery_days") ∧
  is_Some (m !! "recovery_percentage") ∧
  (is_Some (m !! "current_ndvi") ↔ post_flood_of ts fd ≠ []) ∧
  (is_Some (m !! "baseline_ndvi") ↔ post_flood_of ts fd ≠ []) ∧
  (has_all_fields m ↔ post_flood_of ts fd ≠ []) ∧
  (post_flood_of ts fd = [] →
     dom m = {["recovery_rate"; "time_to_recovery_days";
               "recovery_percentage"]} ∧
     m !! "recovery_rate" = Some (PyFloat lit_0) ∧
     m !! "time_to_recovery_days" = Some PyNone ∧
     m !! "recovery_percentage" = Some (PyFloat lit_0)).
Proof.
  intros m. subst m.
  destruct (decide (post_flood_of ts fd = [])) as [E|E].
  - rewrite (metrics_empty _ _ E). unfold has_all_fields.
    simplify_map_eq. rewrite !dom_insert_L, dom_empty_L.
    repeat split; try done.
    intros (_ & _ & _ & [? ?] & _). done.
  - destruct (metrics_nonempty _ _ E) as (rec & _ & ->).
    pose proof (recovery_metrics_of_lookup lit_0_6 (post_flood_of ts fd)
                  rec fd) as (H1 & H2 & H3 & H4 & H5).
    unfold has_all_fields. rewrite H1, H2, H3, H4, H5.
    repeat split; done.
Qed.

(** The dictionary built on a non-empty post-flood subset from the rate
    [rate] of a fit that returned and the current NDVI [cur]:
    time_to_recovery_days is [(0.6 − cur) / rate], a number, when
    [rate > 0] and [cur < 0.6], and it is None in every other case. *)
Lemma time_to_recovery_of_rate ts fd :
  post_flood_of ts fd ≠ [] →
  let m := calculate_recovery_metrics polyfit_slope ts fd in
  ∃ rate cur,
    m !! "recovery_rate" = Some (PyFloat rate) ∧
    m !! "current_ndvi" = Some (PyFloat cur) ∧
    m !! "baseline_ndvi" = Some (PyFloat lit_0_6) ∧
    (gtb rate lit_0 = true ∧ ltb cur lit_0_6 = true →
       ∃ ρ κ, rate = Fin ρ ∧ cur = Fin κ ∧ 0 < ρ ∧ κ < Q2Qc (6 # 10) ∧
              m !! "time_to_recovery_days" =
                Some (PyFloat (Fin ((Q2Qc (6 # 10) - κ) / ρ)))) ∧
    (¬ (gtb rate lit_0 = true ∧ ltb cur lit_0_6 = true) →
       m !! "time_to_recovery_days" = Some PyNone).
Proof.
  intros E m. subst m.
  destruct (metrics_nonempty _ _ E) as (rec & _ & ->).
  pose proof (recovery_metrics_of_lookup lit_0_6 (post_flood_of ts fd)
                rec fd) as (H1 & H2 & _ & H4 & H5).
  eexists _, _. repeat split; [done..| |].
  - intros [Hr Hc]. rewrite H2. unfold days_to_recovery_of.
    rewrite Hr, Hc. cbn [andb].
    destruct (recovery_rate_of polyfit_slope (post_flood_of ts fd) fd)
      as [|ρ]; [done|].
    destruct (mean_ndvi rec) as [|κ]; [done|].
    cbn in Hr, Hc. apply bool_decide_eq_true_1 in Hr, Hc.
    exists ρ, κ. repeat split; try done.
    cbn. rewrite decide_False; [done|].
    intros E'. apply Qclt_not_eq in Hr. congruence.
  - intros Hn. rewrite H2. unfold days_to_recovery_of.
    destruct (gtb _ lit_0) eqn:Hr; [|done].
    destruct (ltb _ lit_0_6) eqn:Hc; [|done].
    by destruct Hn.
Qed.

Lemma py_min_le_left (a x : float64) :
  is_nan a = false → leb (py_min a x) a = true.
Proof.
  unfold py_min. destruct a as [|a]; [done|]. intros _.
  destruct x as [|x]; cbn.
  - apply bool_decide_eq_true_2, Qcle_refl.
  - case_bool_decide as Hlt; cbn; apply bool_decide_eq_true_2.
    + by apply Qclt_le_weak.
    + apply Qcle_refl.
Qed.

Lemma mul_comm (x y : float64) : mul x y = mul y x.
Proof. destruct x, y; cbn; try done. by rewrite Qcmult_comm. Qed.

(** C4.  With any baseline, the stored recovery_percentage is
    [min(100, 100 × (current_ndvi / baseline_ndvi))] when the baseline is
    positive and 0 otherwise, and it is at most 100 in every case;
    [calculate_recovery_metrics] is the instance at its baseline 0.6 on
    every non-empty post-flood subset. *)
Theorem recovery_percentage_spec :
  (∀ baseline post rec fd,
     let m := recovery_metrics_of polyfit_slope baseline post rec fd in
     let p := if gtb baseline lit_0
              then py_min lit_100
                          (mul lit_100 (div (mean_ndvi rec) baseline))
              else lit_0 in
     m !! "current_ndvi" = Some (PyFloat (mean_ndvi rec)) ∧
     m !! "baseline_ndvi" = Some (PyFloat baseline) ∧
     m !! "recovery_percentage" = Some (PyFloat p) ∧
     leb p lit_100 = true) ∧
  (∀ ts fd,
     post_flood_of ts fd ≠ [] →
     let m := calculate_recovery_metrics polyfit_slope ts fd in
     ∃ cur p,
       m !! "current_ndvi" = Some (PyFloat cur) ∧
       m !! "recovery_percentage" = Some (PyFloat p) ∧
       p = py_min lit_100 (mul lit_100 (div cur lit_0_6)) ∧
       leb p lit_100 = true).
Proof.
  assert (Hgen : ∀ baseline cur,
    recovery_percentage_of baseline cur =
      (if gtb baseline lit_0
       then py_min lit_100 (mul lit_100 (div cur baseline)) else lit_0) ∧
    leb (recovery_percentage_of baseline cur) lit_100 = true).
  { intros baseline cur. unfold recovery_percentage_of.
    rewrite (mul_comm (div cur baseline) lit_100).
    split; [done|]. destruct (gtb baseline lit_0).
    - by apply py_min_le_left.
    - cbn. by apply bool_decide_eq_true_2. }
  split.
  - intros baseline post rec fd m p. subst m p.
    pose proof (recovery_metrics_of_lookup baseline post rec fd)
      as (_ & _ & H3 & H4 & H5).
    destruct (Hgen baseline (mean_ndvi rec)) as [Hp Hle].
    rewrite <- Hp. done.
  - intros ts fd E m. subst m.
    destruct (metrics_nonempty _ _ E) as (rec & _ & ->).
    pose proof (recovery_metrics_of_lookup lit_0_6 (post_flood_of ts fd)
                  rec fd) as (_ & _ & H3 & H4 & _).
    destruct (Hgen lit_0_6 (mean_ndvi rec)) as [Hp Hle].
    exists (mean_ndvi rec), (recovery_percentage_of lit_0_6 (mean_ndvi rec)).
    repeat split; try done.
Qed.

(** C8.  When exactly one record is dated on or after the flood date, the
    returned recovery_rate is 0 and time_to_recovery_days is None. *)
Theorem single_record_metrics ts fd :
  length (post_flood_of ts fd) = 1%nat →
  let m := calculate_recovery_metrics polyfit_slope ts fd in
  m !! "recovery_rate" = Some (PyFloat lit_0) ∧
  m !! "time_to_recovery_days" = Some PyNone.
Proof.
  intros Hlen m. subst m.
  assert (E : post_flood_of ts fd ≠ []) by (by intros E; rewrite E in Hlen).
  destruct (metrics_nonempty _ _ E) as (rec & _ & ->).
  pose proof (recovery_metrics_of_lookup lit_0_6 (post_flood_of ts fd)
                rec fd) as (H1 & H2 & _).
  rewrite H1, H2. unfold recovery_rate_of, days_to_recovery_of.
  rewrite Hlen. by rewrite bool_decide_eq_false_2 by lia.
Qed.

End RecoveryRateFacts.

Example sample_series_metrics :
  let m := calculate_recovery_metrics ols_slope sample_series (day 0) in
  m !! "recovery_rate" = Some (PyFloat (Fin (Q2Qc (1 # 600)))) ∧
  m !! "recovery_percentage" = Some (PyFloat (Fin (Q2Qc 75))) ∧
  m !! "time_to_recovery_days" = Some (PyFloat (Fin (Q2Qc 90))).
Proof.
  vm_compute. repeat split; do 3 f_equal; apply Qc_is_canon; reflexivity.
Qed.

Lemma recovery_metrics_fields_witness :
  let m := calculate_recovery_metrics ols_slope [] (day 0) in
  is_Some (m !! "recovery_rate") ∧
  is_Some (m !! "time_to_recovery_days") ∧
  is_Some (m !! "recovery_percentage") ∧
  (is_Some (m !! "current_ndvi") ↔ post_flood_of [] (day 0) ≠ []) ∧
  (is_Some (m !! "baseline_ndvi") ↔ post_flood_of [] (day 0) ≠ []) ∧
  (has_all_fields m ↔ post_flood_of [] (day 0) ≠ []) ∧
  (post_flood_of [] (day 0) = [] →
     dom m = {["recovery_rate"; "time_to_recovery_days";
               "recovery_percentage"]} ∧
     m !! "recovery_rate" = Some (PyFloat lit_0) ∧
     m !! "time_to_recovery_days" = Some PyNone ∧
     m !! "recovery_percentage" = Some (PyFloat lit_0)).
Proof. apply (recovery_metrics_fields ols_slope [] (day 0)). Defined.

(** C2 as stated fails: a series whose only record is dated before the
    flood has an empty post-flood subset, and the returned dictionary has
    neither current_ndvi nor baseline_ndvi. *)
Lemma recovery_metrics_fields_counterexample :
  ¬ has_all_fields
      (calculate_recovery_metrics ols_slope [sample_record 0 30 100] (day 1)).
Proof.
  intros (_ & _ & _ & [x Hx] & _). vm_compute in Hx. discriminate Hx.
Qed.

Lemma recovery_percentage_spec_witness :
  let m := calculate_recovery_metrics ols_slope sample_series (day 0) in
  ∃ cur p,
    m !! "current_ndvi" = Some (PyFloat cur) ∧
    m !! "recovery_percentage" = Some (PyFloat p) ∧
    p = py_min lit_100 (mul lit_100 (div cur lit_0_6)) ∧
    leb p lit_100 = true.
Proof.
  apply (proj2 (recovery_percentage_spec ols_slope) sample_series (day 0)).
  vm_compute. discriminate.
Defined.

Lemma single_record_metrics_witness :
  let m := calculate_recovery_metrics ols_slope [sample_record 0 30 100]
                                      (day 0) in
  m !! "recovery_rate" = Some (PyFloat lit_0) ∧
  m !! "time_to_recovery_days" = Some PyNone.
Proof.
  apply (single_record_metrics ols_slope [sample_record 0 30 100] (day 0)).
  reflexivity.
Defined.

(** ** Time-series aggregator *)

Lemma omap_id_total {A} (l : list (option A)) :
  (∀ i o, l !! i = Some o → is_Some o) →
  length (omap id l) = length l ∧
  ∀ i x, l !! i = Some (Some x) → omap id l !! i = Some x.
Proof.
  induction l as [|o l IH]; intros Hall; [done|].
  destruct (Hall 0%nat o eq_refl) as [x ->]. cbn.
  destruct IH as [IHlen IHlook].
  { intros i o' Hi. by apply (Hall (S i)). }
  split; [by rewrite IHlen|].
  intros [|i] y Hy; cbn in *; [congruence|]. by apply IHlook.
Qed.

Section AggregatorFacts.

Variable nanmean : ndarray float64 → float64.
Variable nanstd : ndarray float64 → float64.

Lemma time_step_record_some ndvi_series ndwi_series radar_series i d g :
  ndvi_series !! i = Some g →
  ∃ rec,
    time_step_record nanmean nanstd ndvi_series ndwi_series radar_series i d
      = Some rec ∧
    date rec = d ∧ mean_ndvi rec = nanmean g ∧ std_ndvi rec = nanstd g.
Proof.
  intros Hg. unfold time_step_record.
  rewrite bool_decide_eq_true_2 by (by eapply lookup_lt_Some).
  rewrite Hg. cbn. eexists. split; [done|]. done.
Qed.

(** C5.  When the date list and the NDVI grid list have one length,
    [process_time_series] raises (its ValueError for empty data) exactly
    when the sequence is empty; otherwise it returns one record for every
    acquisition, in input order, the record at position [i] carrying the
    [i]-th date and the statistics of the [i]-th grid.  The result is
    either the error or the full list, never both. *)
Theorem process_time_series_spec dates ndvi_series ndwi_series radar_series :
  length ndvi_series = length dates →
  let result := process_time_series nanmean nanstd dates ndvi_series
                                    ndwi_series radar_series in
  ((∃ e, result = inl e) ↔ dates = []) ∧
  (dates = [] →
     result = inl (ValueError "Time series data cannot be empty")) ∧
  (dates ≠ [] →
     ∃ records,
       result = inr records ∧
       length records = length dates ∧
       ∀ i d, dates !! i = Some d →
         ∃ g rec, ndvi_series !! i = Some g ∧
                  records !! i = Some rec ∧
                  date rec = d ∧
                  mean_ndvi rec = nanmean g ∧
                  std_ndvi rec = nanstd g).
Proof.
  intros Hlen result.
  assert (Hfull : dates ≠ [] →
     ∃ records,
       result = inr records ∧
       length records = length dates ∧
       ∀ i d, dates !! i = Some d →
         ∃ g rec, ndvi_series !! i = Some g ∧
                  records !! i = Some rec ∧
                  date rec = d ∧
                  mean_ndvi rec = nanmean g ∧
                  std_ndvi rec = nanstd g).
  { intros Hne. subst result. unfold process_time_series.
    rewrite (bool_decide_eq_false_2 (dates = [])) by done.
    rewrite (bool_decide_eq_false_2 (ndvi_series = [])).
    2:{ intros ->. destruct dates; [done|]. cbn in Hlen. lia. }
    cbn [orb]. eexists. split; [done|].
    set (f := time_step_record nanmean nanstd ndvi_series ndwi_series
                               radar_series).
    destruct (omap_id_total (imap f dates)) as [Hl Hk].
    { intros i o Hi. rewrite list_lookup_imap in Hi.
      destruct (dates !! i) as [d|] eqn:Hd; [|done]. cbn in Hi.
      destruct (lookup_lt_is_Some_2 ndvi_series i) as [g Hg].
      { rewrite Hlen. by eapply lookup_lt_Some. }
      destruct (time_step_record_some ndvi_series ndwi_series radar_series
                  i d g Hg) as (rec & Hrec & _).
      exists rec. subst f. congruence. }
    split; [by rewrite Hl, length_imap|].
    intros i d Hd.
    destruct (lookup_lt_is_Some_2 ndvi_series i) as [g Hg].
    { rewrite Hlen. by eapply lookup_lt_Some. }
    destruct (time_step_record_some ndvi_series ndwi_series radar_series
                i d g Hg) as (rec & Hrec & Hdate & Hmean & Hstd).
    exists g, rec. repeat split; try done.
    apply Hk. rewrite list_lookup_imap, Hd. cbn. subst f. by rewrite Hrec. }
  assert (Hempty : dates = [] →
     result = inl (ValueError "Time series data cannot be empty")).
  { intros ->. done. }
  repeat split; try done.
  - intros [e He]. destruct (decide (dates = [])) as [|Hne]; [done|].
    destruct (Hfull Hne) as (records & Hr & _). congruence.
  - intros E. eexists. by apply Hempty.
Qed.

End AggregatorFacts.

Lemma process_time_series_spec_witness :
  let dates := [day 0; day 30] in
  let ndvi_series := [sample_grid 30 100; sample_grid 35 100] in
  let result := process_time_series nanmean_exact (λ _, lit_0) dates
                                    ndvi_series [] [] in
  ((∃ e, result = inl e) ↔ dates = []) ∧
  (dates = [] →
     result = inl (ValueError "Time series data cannot be empty")) ∧
  (dates ≠ [] →
     ∃ records,
       result = inr records ∧
       length records = length dates ∧
       ∀ i d, dates !! i = Some d →
         ∃ g rec, ndvi_series !! i = Some g ∧
                  records !! i = Some rec ∧
                  date rec = d ∧
                  mean_ndvi rec = nanmean_exact g ∧
                  std_ndvi rec = lit_0).
Proof.
  apply (process_time_series_spec nanmean_exact (λ _, lit_0)
           [day 0; day 30] [sample_grid 30 100; sample_grid 35 100] [] []).
  reflexivity.
Defined.

(** ** Event-time scan *)

Lemma find_snoc {A} (f : A → bool) (l : list A) (x : A) :
  find f (l ++ [x]) =
    match find f l with
    | Some y => Some y
    | None => if f x then Some x else None
    end.
Proof.
  induction l as [|y l IH]; cbn; [done|]. by destruct (f y).
Qed.

Lemma find_seq_spec (f : nat → bool) (n : nat) :
  match find f (seq 0 n) with
  | Some j => (j < n)%nat ∧ f j = true ∧ ∀ i, (i < j)%nat → f i = false
  | None => ∀ i, (i < n)%nat → f i = false
  end.
Proof.
  induction n as [|n IH]; [cbn; lia|].
  rewrite seq_S, find_snoc. cbn [plus].
  destruct (find f (seq 0 n)) as [y|].
  - destruct IH as (Hy & Hfy & Hmin). repeat split; [lia|done..].
  - destruct (f n) eqn:Hn.
    + repeat split; [lia|done..].
    + intros i Hi.
      assert (i = n ∨ i < n)%nat as [->|H] by lia; [done|]. by apply IH.
Qed.

Lemma find_seq_Some (f : nat → bool) (n j : nat) :
  find f (seq 0 n) = Some j ↔
  (j < n)%nat ∧ f j = true ∧ ∀ i, (i < j)%nat → f i = false.
Proof.
  pose proof (find_seq_spec f n) as Hspec.
  destruct (find f (seq 0 n)) as [y|]; split.
  - by intros [= <-].
  - intros (Hj & Hfj & Hminj). destruct Hspec as (Hy & Hfy & Hmin).
    f_equal. destruct (Nat.lt_trichotomy y j) as [H|[H|H]]; [|done|].
    + apply Hminj in H. congruence.
    + apply Hmin in H. congruence.
  - done.
  - intros (Hj & Hfj & _). apply Hspec in Hj. congruence.
Qed.

Lemma find_seq_None (f : nat → bool) (n : nat) :
  find f (seq 0 n) = None ↔ ∀ i, (i < n)%nat → f i = false.
Proof.
  pose proof (find_seq_spec f n) as Hspec.
  destruct (find f (seq 0 n)) as [y|]; split; try done.
  intros Hall. destruct Hspec as (Hy & Hfy & _).
  rewrite Hall in Hfy by done. done.
Qed.

Lemma scan_steps_S ndvi_stack thr mask n :
  scan_steps ndvi_stack thr mask (S n) =
  scan_step ndvi_stack thr mask (scan_steps ndvi_stack thr mask n) n.
Proof. unfold scan_steps. by rewrite seq_S, fold_left_app. Qed.

Lemma scan_steps_shape ndvi_stack thr mask n :
  shape (scan_steps ndvi_stack thr mask n).1
    = (height ndvi_stack, width ndvi_stack) ∧
  shape (scan_steps ndvi_stack thr mask n).2
    = (height ndvi_stack, width ndvi_stack).
Proof.
  induction n as [|n [IH1 IH2]]; [done|].
  rewrite scan_steps_S. unfold scan_step, shape in *. cbn. done.
Qed.

(** The state of one pixel after [n] iterations: inside the mask it is
    decided by the first healed step among the first [n], outside it keeps
    the initial values. *)
Lemma scan_steps_pixel ndvi_stack thr mask n r c :
  let st := scan_steps ndvi_stack thr mask n in
  let first := if cell mask r c
               then first_healed ndvi_stack thr r c n else None in
  cell st.1 r c = from_option S (time_steps ndvi_stack) first ∧
  cell st.2 r c = from_option (λ _, 1%Z) 0%Z first.
Proof.
  induction n as [|n [IHt IHe]]; [by destruct (cell mask r c)|].
  cbv zeta in *. rewrite scan_steps_S.
  unfold scan_step, mask_assign, arr_map2, arr_map, frame. cbn [fst snd cell].
  rewrite IHt, IHe. unfold first_healed. rewrite seq_S, find_snoc.
  cbn [plus]. fold (pixel_healed ndvi_stack thr r c n).
  destruct (cell mask r c); [|by rewrite andb_false_r].
  rewrite andb_true_r.
  destruct (find (pixel_healed ndvi_stack thr r c) (seq 0 n)) as [j|]; cbn.
  - by rewrite andb_false_r.
  - rewrite andb_true_r, Nat.add_1_r.
    by destruct (pixel_healed ndvi_stack thr r c n).
Qed.

Lemma flood_mask_cell h w r c :
  cell (make_flood_mask h w) r c
    = bool_decide ((150 ≤ r < 350)%nat ∧ (150 ≤ c < 350)%nat).
Proof.
  unfold make_flood_mask, slice_assign. cbn.
  by destruct (bool_decide _).
Qed.

Lemma run_survival_analysis_map fitter ndvi_stack baseline_ndvi :
  ∃ res,
    (run_survival_analysis (Some fitter) ndvi_stack baseline_ndvi).1
      = Some res ∧
    recovery_map res =
      (event_time_scan ndvi_stack
         (arr_map (λ b, mul b lit_0_9) baseline_ndvi)
         (make_flood_mask (height ndvi_stack) (width ndvi_stack))).1.
Proof.
  unfold run_survival_analysis, survival_of_threshold. cbv zeta.
  destruct (bool_decide _); cbn; eexists; split; done.
Qed.

(** C1.  For a pixel inside the flood mask: when step [k] (counted from 1)
    is the first at which its NDVI is at least the recovery threshold, the
    state after every later iteration of the scan, and the returned
    recovery map, have time_to_event [k] and event_observed 1 there,
    whatever the later NDVI values are; when no step reaches the
    threshold, the pixel ends with time_to_event [time_steps] and
    event_observed 0. *)
Theorem first_crossing_frozen fitter ndvi_stack baseline_ndvi r c :
  shape baseline_ndvi = (height ndvi_stack, width ndvi_stack) →
  (r < height ndvi_stack)%nat → (c < width ndvi_stack)%nat →
  (150 ≤ r < 350)%nat → (150 ≤ c < 350)%nat →
  let thr := arr_map (λ b, mul b lit_0_9) baseline_ndvi in
  let mask := make_flood_mask (height ndvi_stack) (width ndvi_stack) in
  let healed step :=
    geb (voxel ndvi_stack step r c) (mul (cell baseline_ndvi r c) lit_0_9) in
  ∃ res,
    (run_survival_analysis (Some fitter) ndvi_stack baseline_ndvi).1
      = Some res ∧
    shape (recovery_map res) = (height ndvi_stack, width ndvi_stack) ∧
    (∀ k, (1 ≤ k ≤ time_steps ndvi_stack)%nat →
       healed (k - 1)%nat = true →
       (∀ j, (1 ≤ j < k)%nat → healed (j - 1)%nat = false) →
       (∀ n, (k ≤ n ≤ time_steps ndvi_stack)%nat →
          cell (scan_steps ndvi_stack thr mask n).1 r c = k ∧
          cell (scan_steps ndvi_stack thr mask n).2 r c = 1%Z) ∧
       cell (recovery_map res) r c = k ∧
       cell (event_time_scan ndvi_stack thr mask).2 r c = 1%Z) ∧
    ((∀ j, (j < time_steps ndvi_stack)%nat → healed j = false) →
       cell (recovery_map res) r c = time_steps ndvi_stack ∧
       cell (event_time_scan ndvi_stack thr mask).2 r c = 0%Z).
Proof.
  intros Hshape Hr Hc Hmr Hmc thr mask healed.
  destruct (run_survival_analysis_map fitter ndvi_stack baseline_ndvi)
    as (res & Hres & Hmap).
  fold thr mask in Hmap.
  assert (Hmask : cell mask r c = true).
  { subst mask. rewrite flood_mask_cell. by apply bool_decide_eq_true_2. }
  assert (Hpix : ∀ n,
    cell (scan_steps ndvi_stack thr mask n).1 r c
      = from_option S (time_steps ndvi_stack)
          (first_healed ndvi_stack thr r c n) ∧
    cell (scan_steps ndvi_stack thr mask n).2 r c
      = from_option (λ _, 1%Z) 0%Z (first_healed ndvi_stack thr r c n)).
  { intros n. pose proof (scan_steps_pixel ndvi_stack thr mask n r c) as H.
    cbv zeta in H. by rewrite Hmask in H. }
  assert (Hfirst : ∀ k n, (1 ≤ k ≤ n)%nat →
    healed (k - 1)%nat = true →
    (∀ j, (1 ≤ j < k)%nat → healed (j - 1)%nat = false) →
    first_healed ndvi_stack thr r c n = Some (k - 1)%nat).
  { intros k n Hk Hh Hbefore. apply find_seq_Some.
    repeat split; [lia|done|].
    intros i Hi. specialize (Hbefore (S i)).
    rewrite Nat.sub_1_r in Hbefore. by apply Hbefore; lia. }
  assert (Hnever :
    (∀ j, (j < time_steps ndvi_stack)%nat → healed j = false) →
    first_healed ndvi_stack thr r c (time_steps ndvi_stack) = None).
  { intros Hall. by apply find_seq_None. }
  exists res. repeat split; try done.
  - rewrite Hmap. apply scan_steps_shape.
  - destruct (Hpix n) as [Ht _]. rewrite Ht, (Hfirst k n) by (done || lia).
    cbn. lia.
  - destruct (Hpix n) as [_ He]. by rewrite He, (Hfirst k n) by (done || lia).
  - rewrite Hmap. unfold event_time_scan.
    destruct (Hpix (time_steps ndvi_stack)) as [Ht _].
    rewrite Ht, (Hfirst k) by (done || lia). cbn. lia.
  - unfold event_time_scan.
    destruct (Hpix (time_steps ndvi_stack)) as [_ He].
    by rewrite He, (Hfirst k) by (done || lia).
  - rewrite Hmap. unfold event_time_scan.
    destruct (Hpix (time_steps ndvi_stack)) as [Ht _].
    by rewrite Ht, Hnever.
  - unfold event_time_scan.
    destruct (Hpix (time_steps ndvi_stack)) as [_ He].
    by rewrite He, Hnever.
Qed.

Example sample_stack_survival :
  let out := run_survival_analysis (Some kaplan_meier) sample_stack
                                   sample_baseline in
  out.2 = [FitCall [2; 3; 2; 3]%nat [1; 1; 1; 1]%Z] ∧
  median_recovery_time <$> out.1 = Some (MedianAt 2) ∧
  confidence_score <$> out.1 = Some (Fin (Q2Qc 100)).
Proof.
  vm_compute. repeat split.
Qed.

Lemma first_crossing_frozen_witness :
  let thr := arr_map (λ b, mul b lit_0_9) sample_baseline in
  let mask := make_flood_mask (height sample_stack) (width sample_stack) in
  let healed step :=
    geb (voxel sample_stack step 150 150)
        (mul (cell sample_baseline 150 150) lit_0_9) in
  ∃ res,
    (run_survival_analysis (Some kaplan_meier) sample_stack
                           sample_baseline).1 = Some res ∧
    shape (recovery_map res) = (height sample_stack, width sample_stack) ∧
    (∀ k, (1 ≤ k ≤ time_steps sample_stack)%nat →
       healed (k - 1)%nat = true →
       (∀ j, (1 ≤ j < k)%nat → healed (j - 1)%nat = false) →
       (∀ n, (k ≤ n ≤ time_steps sample_stack)%nat →
          cell (scan_steps sample_stack thr mask n).1 150 150 = k ∧
          cell (scan_steps sample_stack thr mask n).2 150 150 = 1%Z) ∧
       cell (recovery_map res) 150 150 = k ∧
       cell (event_time_scan sample_stack thr mask).2 150 150 = 1%Z) ∧
    ((∀ j, (j < time_steps sample_stack)%nat → healed j = false) →
       cell (recovery_map res) 150 150 = time_steps sample_stack ∧
       cell (event_time_scan sample_stack thr mask).2 150 150 = 0%Z).
Proof.
  apply (first_crossing_frozen kaplan_meier sample_stack sample_baseline
           150 150).
  - reflexivity.
  - simpl. lia.
  - simpl. lia.
  - lia.
  - lia.
Defined.

(** C10.  A pixel of the grid outside the flood mask keeps its initial
    values, time_to_event [time_steps] and event_observed 0, after every
    iteration of the scan and in the returned recovery map, whatever its
    NDVI values are; a pixel whose event_observed is not 0 after some
    iteration lies inside the mask. *)
Theorem outside_mask_stays_censored fitter ndvi_stack baseline_ndvi r c :
  shape baseline_ndvi = (height ndvi_stack, width ndvi_stack) →
  (r < height ndvi_stack)%nat → (c < width ndvi_stack)%nat →
  ¬ ((150 ≤ r < 350)%nat ∧ (150 ≤ c < 350)%nat) →
  let thr := arr_map (λ b, mul b lit_0_9) baseline_ndvi in
  let mask := make_flood_mask (height ndvi_stack) (width ndvi_stack) in
  (∀ n, (n ≤ time_steps ndvi_stack)%nat →
     cell (scan_steps ndvi_stack thr mask n).1 r c = time_steps ndvi_stack ∧
     cell (scan_steps ndvi_stack thr mask n).2 r c = 0%Z) ∧
  (∃ res,
     (run_survival_analysis (Some fitter) ndvi_stack baseline_ndvi).1
       = Some res ∧
     cell (recovery_map res) r c = time_steps ndvi_stack) ∧
  (∀ r' c' n, cell (scan_steps ndvi_stack thr mask n).2 r' c' ≠ 0%Z →
     (150 ≤ r' < 350)%nat ∧ (150 ≤ c' < 350)%nat).
Proof.
  intros Hshape Hr Hc Hout thr mask.
  assert (Hpix : ∀ r' c' n, cell mask r' c' = false →
    cell (scan_steps ndvi_stack thr mask n).1 r' c' = time_steps ndvi_stack ∧
    cell (scan_steps ndvi_stack thr mask n).2 r' c' = 0%Z).
  { intros r' c' n Hm.
    pose proof (scan_steps_pixel ndvi_stack thr mask n r' c') as H.
    cbv zeta in H. by rewrite Hm in H. }
  assert (Hmask : cell mask r c = false).
  { subst mask. rewrite flood_mask_cell. by apply bool_decide_eq_false_2. }
  split; [|split].
  - intros n _. by apply Hpix.
  - destruct (run_survival_analysis_map fitter ndvi_stack baseline_ndvi)
      as (res & Hres & Hmap).
    exists res. split; [done|]. rewrite Hmap. by apply Hpix.
  - intros r' c' n Hfrozen. destruct (cell mask r' c') eqn:Hm.
    + subst mask. rewrite flood_mask_cell in Hm.
      by apply bool_decide_eq_true_1 in Hm.
    + destruct (Hpix r' c' n Hm) as [_ He]. congruence.
Qed.

Lemma outside_mask_stays_censored_witness :
  let thr := arr_map (λ b, mul b lit_0_9) sample_baseline in
  let mask := make_flood_mask (height sample_stack) (width sample_stack) in
  (∀ n, (n ≤ time_steps sample_stack)%nat →
     cell (scan_steps sample_stack thr mask n).1 10 20
       = time_steps sample_stack ∧
     cell (scan_steps sample_stack thr mask n).2 10 20 = 0%Z) ∧
  (∃ res,
     (run_survival_analysis (Some kaplan_meier) sample_stack
                            sample_baseline).1 = Some res ∧
     cell (recovery_map res) 10 20 = time_steps sample_stack) ∧
  (∀ r' c' n, cell (scan_steps sample_stack thr mask n).2 r' c' ≠ 0%Z →
     (150 ≤ r' < 350)%nat ∧ (150 ≤ c' < 350)%nat).
Proof.
  apply (outside_mask_stays_censored kaplan_meier sample_stack
           sample_baseline 10 20).
  - reflexivity.
  - simpl. lia.
  - simpl. lia.
  - lia.
Defined.

(** ** Confidence score *)

Lemma elem_of_pixels h w r c :
  (r, c) ∈ pixels h w ↔ (r < h)%nat ∧ (c < w)%nat.
Proof.
  unfold pixels. rewrite list_elem_of_bind. split.
  - intros (r' & Hin & Hr). apply list_elem_of_bind in Hin
      as (c' & Hin & Hc).
    apply list_elem_of_singleton in Hin as [= -> ->].
    apply elem_of_seq in Hr, Hc. lia.
  - intros [Hr Hc]. exists r. split; [|apply elem_of_seq; lia].
    apply list_elem_of_bind. exists c.
    split; [by apply list_elem_of_singleton|apply elem_of_seq; lia].
Qed.

Lemma masked_count_pos mask h w :
  (0 < masked_count mask h w)%nat ↔
  ∃ r c, (r < h)%nat ∧ (c < w)%nat ∧ cell mask r c = true.
Proof.
  unfold masked_count, masked_pixels. split.
  - intros Hpos.
    destruct (filter _ (pixels h w)) as [|[r c] l] eqn:E; [cbn in Hpos; lia|].
    assert (Hin : (r, c) ∈ filter (λ p, cell mask p.1 p.2 = true)
                              (pixels h w)).
    { rewrite E. apply list_elem_of_here. }
    apply list_elem_of_filter in Hin as [Hm Hin].
    apply elem_of_pixels in Hin. exists r, c. by destruct Hin.
  - intros (r & c & Hr & Hc & Hm).
    assert (Hin : (r, c) ∈ filter (λ p, cell mask p.1 p.2 = true)
                              (pixels h w)).
    { apply list_elem_of_filter. split; [done|]. by apply elem_of_pixels. }
    destruct (filter _ (pixels h w)); [by apply elem_of_nil in Hin|].
    cbn. lia.
Qed.

Lemma mask_select_length {A} (a : ndarray A) mask :
  length (mask_select a mask) = masked_count mask (nrows a) (ncols a).
Proof. unfold mask_select, masked_count, masked_pixels. by rewrite length_fmap. Qed.

(** The sum of a 0/1 array over the positions of a mask counts the ones. *)
Lemma sum_masked_events (mask : ndarray bool) (e : ndarray Z)
    (l : list (nat * nat)) :
  (∀ r c, cell e r c = 0%Z ∨ cell e r c = 1%Z) →
  foldr Z.add 0%Z
    ((λ p, cell e p.1 p.2) <$> filter (λ p, cell mask p.1 p.2 = true) l)
  = Z.of_nat (length (filter (λ p, cell mask p.1 p.2 = true
                                   ∧ cell e p.1 p.2 = 1%Z) l)).
Proof.
  intros Hbit. induction l as [|[r c] l IH]; [done|].
  rewrite !filter_cons. cbn [fst snd].
  destruct (Hbit r c) as [He|He];
    repeat case_decide; cbn; rewrite ?IH, ?He; try lia;
    intuition congruence.
Qed.

Lemma Qc_of_nat_eq_0 (n : nat) : Qc_of_nat n = 0 → n = 0%nat.
Proof.
  unfold Qc_of_nat. intros H. apply Q2Qc_eq_iff in H.
  unfold Qeq in H. cbn in H. lia.
Qed.

Lemma scan_events_binary ndvi_stack thr mask n r c :
  cell (scan_steps ndvi_stack thr mask n).2 r c = 0%Z ∨
  cell (scan_steps ndvi_stack thr mask n).2 r c = 1%Z.
Proof.
  destruct (scan_steps_pixel ndvi_stack thr mask n r c) as [_ ->].
  destruct (if cell mask r c then _ else _); cbn; auto.
Qed.

(** C7.  With the fitter available: when some pixel of the grid lies
    inside the flood mask, the confidence score is
    [100 × observed / masked], the counts of masked pixels with
    event_observed 1 and of masked pixels, and the fit is called once;
    when none does, the median recovery time and the confidence score are
    0 and the fit is not called. *)
Theorem confidence_score_spec fitter ndvi_stack baseline_ndvi :
  shape baseline_ndvi = (height ndvi_stack, width ndvi_stack) →
  let h := height ndvi_stack in
  let w := width ndvi_stack in
  let thr := arr_map (λ b, mul b lit_0_9) baseline_ndvi in
  let mask := make_flood_mask h w in
  let e_matrix := (event_time_scan ndvi_stack thr mask).2 in
  let masked := masked_count mask h w in
  let observed := observed_count mask e_matrix h w in
  let out := run_survival_analysis (Some fitter) ndvi_stack baseline_ndvi in
  ∃ res,
    out.1 = Some res ∧
    ((∃ r c, (r < h)%nat ∧ (c < w)%nat ∧ cell mask r c = true) →
       (0 < masked)%nat ∧
       confidence_score res
         = Fin (Q2Qc 100 * Qc_of_nat observed / Qc_of_nat masked) ∧
       length out.2 = 1%nat) ∧
    (¬ (∃ r c, (r < h)%nat ∧ (c < w)%nat ∧ cell mask r c = true) →
       median_recovery_time res = MedianAt 0 ∧
       confidence_score res = lit_0 ∧
       out.2 = []).
Proof.
  intros Hshape h w thr mask e_matrix masked observed out.
  subst out. unfold run_survival_analysis, survival_of_threshold.
  cbv zeta. fold h w. fold thr mask.
  set (st := event_time_scan ndvi_stack thr mask).
  assert (Hrows : nrows st.1 = h ∧ ncols st.1 = w).
  { pose proof (scan_steps_shape ndvi_stack thr mask
                  (time_steps ndvi_stack)) as [H1 _].
    unfold shape in H1. by injection H1. }
  assert (Hrows2 : nrows st.2 = h ∧ ncols st.2 = w).
  { pose proof (scan_steps_shape ndvi_stack thr mask
                  (time_steps ndvi_stack)) as [_ H2].
    unfold shape in H2. by injection H2. }
  destruct Hrows as [Hr1 Hc1], Hrows2 as [Hr2 Hc2].
  rewrite mask_select_length, Hr1, Hc1. fold masked.
  case_bool_decide as Hpos; cbn [fst snd]; eexists; (split; [done|]).
  - split.
    + intros _. split; [done|]. cbn [confidence_score length]. split; [|done].
      unfold np_mean. rewrite mask_select_length, Hr2, Hc2. fold masked.
      unfold mask_select. rewrite Hr2, Hc2.
      rewrite (sum_masked_events mask st.2 (pixels h w))
        by apply scan_events_binary.
      fold (observed_count mask st.2 h w). fold e_matrix observed.
      unfold of_nat, of_Z, div, mul, lit_100, lift2.
      fold (Qc_of_nat observed) (Qc_of_nat masked).
      rewrite decide_False by (intros E; apply Qc_of_nat_eq_0 in E; lia).
      change (Fin (Qc_of_nat observed / Qc_of_nat masked * Q2Qc 100)
              = Fin (Q2Qc 100 * Qc_of_nat observed / Qc_of_nat masked)).
      generalize (Q2Qc 100). intros k.
      f_equal. field. intros E; apply Qc_of_nat_eq_0 in E; lia.
    + intros Hnone. exfalso. apply Hnone. by apply masked_count_pos.
  - split.
    + intros Hsome. apply masked_count_pos in Hsome. done.
    + done.
Qed.

Lemma confidence_score_spec_witness :
  let h := height sample_stack in
  let w := width sample_stack in
  let thr := arr_map (λ b, mul b lit_0_9) sample_baseline in
  let mask := make_flood_mask h w in
  let e_matrix := (event_time_scan sample_stack thr mask).2 in
  let masked := masked_count mask h w in
  let observed := observed_count mask e_matrix h w in
  let out := run_survival_analysis (Some kaplan_meier) sample_stack
                                   sample_baseline in
  ∃ res,
    out.1 = Some res ∧
    ((∃ r c, (r < h)%nat ∧ (c < w)%nat ∧ cell mask r c = true) →
       (0 < masked)%nat ∧
       confidence_score res
         = Fin (Q2Qc 100 * Qc_of_nat observed / Qc_of_nat masked) ∧
       length out.2 = 1%nat) ∧
    (¬ (∃ r c, (r < h)%nat ∧ (c < w)%nat ∧ cell mask r c = true) →
       median_recovery_time res = MedianAt 0 ∧
       confidence_score res = lit_0 ∧
       out.2 = []).
Proof.
  apply (confidence_score_spec kaplan_meier sample_stack sample_baseline).
  reflexivity.
Defined.

(** ** Kaplan-Meier estimate on the scan's observations *)

Lemma Qc_of_nat_add (a b : nat) :
  Qc_of_nat (a + b) = Qc_of_nat a + Qc_of_nat b.
Proof.
  unfold Qc_of_nat. apply Qc_is_canon. cbn [this Q2Qc Qcplus].
  rewrite !Qred_correct, Nat2Z.inj_add, inject_Z_plus. reflexivity.
Qed.

Lemma Qc_of_nat_ratio_le (a b n : nat) :
  (a ≤ b)%nat → Qc_of_nat a / Qc_of_nat n <= Qc_of_nat b / Qc_of_nat n.
Proof.
  intros Hab. unfold Qcle, Qcdiv, Qcmult, Qcinv, Qc_of_nat.
  cbn [this Q2Qc]. rewrite !Qred_correct.
  apply Qmult_le_compat_r.
  - rewrite <- Zle_Qle. lia.
  - apply Qinv_le_0_compat. replace 0%Q with (inject_Z 0) by done.
    rewrite <- Zle_Qle. lia.
Qed.

Lemma filter_length_ext {A} (P Q : A → Prop)
    `{∀ x, Decision (P x)} `{∀ x, Decision (Q x)} (l : list A) :
  Forall (λ x, P x ↔ Q x) l → length (filter P l) = length (filter Q l).
Proof.
  induction 1 as [|x l Hx _ IH]; [done|].
  rewrite !filter_cons. repeat case_decide; cbn; rewrite ?IH; tauto || lia.
Qed.

Lemma filter_length_fmap_mono {A B} (P Q : B → Prop)
    `{∀ x, Decision (P x)} `{∀ x, Decision (Q x)} (f g : A → B)
    (l : list A) :
  (∀ x, x ∈ l → P (f x) → Q (g x)) →
  (length (filter P (f <$> l)) ≤ length (filter Q (g <$> l)))%nat.
Proof.
  induction l as [|x l IH]; intros Himp; [done|].
  rewrite !fmap_cons, !filter_cons.
  assert (Hx : P (f x) → Q (g x)) by (apply Himp; left).
  assert (IH' : (length (filter P (f <$> l))
                 ≤ length (filter Q (g <$> l)))%nat).
  { apply IH. intros y Hy. apply Himp. by right. }
  repeat case_decide; cbn; tauto || lia.
Qed.

Lemma at_risk_zero obs : at_risk obs 0 = length obs.
Proof.
  unfold at_risk. induction obs as [|o obs IH]; [done|].
  rewrite filter_cons. rewrite decide_True by lia. cbn. by rewrite IH.
Qed.

Lemma unrecovered_zero obs :
  (unrecovered obs 0 + events_at obs 0 = length obs)%nat.
Proof.
  unfold unrecovered, events_at. induction obs as [|o obs IH]; [done|].
  rewrite !filter_cons. repeat case_decide; cbn; lia.
Qed.

Lemma unrecovered_step obs t :
  unrecovered obs t = (unrecovered obs (S t) + events_at obs (S t))%nat.
Proof.
  unfold unrecovered, events_at. induction obs as [|o obs IH]; [done|].
  rewrite !filter_cons. repeat case_decide; cbn; lia.
Qed.

Lemma at_risk_unrecovered T obs t :
  censored_at_horizon T obs → (t < T)%nat →
  at_risk obs (S t) = unrecovered obs t.
Proof.
  intros Hobs Ht. unfold at_risk, unrecovered.
  apply filter_length_ext. eapply Forall_impl; [exact Hobs|].
  intros [d e] [Hd He]. cbn in *.
  destruct (decide (e = 0%Z)) as [E|E]; [specialize (He E)|]; lia.
Qed.

Lemma unrecovered_beyond_max obs t :
  (max_list obs.*1 ≤ t)%nat →
  unrecovered obs t = unrecovered obs (max_list obs.*1).
Proof.
  intros Ht. unfold unrecovered. apply filter_length_ext.
  apply Forall_forall. intros [d e] Hin. cbn.
  assert (d ≤ max_list obs.*1)%nat.
  { apply max_list_elem_of_le. apply list_elem_of_fmap. by exists (d, e). }
  lia.
Qed.

Lemma max_duration_le T obs :
  censored_at_horizon T obs → (max_list obs.*1 ≤ T)%nat.
Proof.
  induction 1 as [|o obs [Ho _] _ IH]; cbn; lia.
Qed.

(** With censoring only at the horizon, the product-limit estimate is the
    fraction of observations not yet recovered. *)
Lemma km_survival_closed T obs t :
  censored_at_horizon T obs → obs ≠ [] → (t ≤ T)%nat →
  km_survival obs t
    = Qc_of_nat (unrecovered obs t) / Qc_of_nat (length obs).
Proof.
  intros Hobs Hne. assert (HN : length obs ≠ 0%nat) by by destruct obs.
  induction t as [|t IH]; intros Ht.
  - cbn [km_survival]. unfold km_factor. rewrite at_risk_zero.
    rewrite decide_False by done.
    pose proof (unrecovered_zero obs) as Hsum. revert Hsum HN.
    generalize (unrecovered obs 0), (events_at obs 0), (length obs).
    intros U d N <- HN. rewrite Qc_of_nat_add. field.
    rewrite <- Qc_of_nat_add. intros E. apply Qc_of_nat_eq_0 in E. lia.
  - cbn [km_survival]. rewrite IH by lia. unfold km_factor.
    rewrite (at_risk_unrecovered T) by (done || lia).
    rewrite (unrecovered_step obs t). revert HN.
    generalize (unrecovered obs (S t)), (events_at obs (S t)), (length obs).
    intros U d N HN.
    assert (HNq : Qc_of_nat N ≠ 0).
    { intros E. apply Qc_of_nat_eq_0 in E. lia. }
    destruct (decide ((U + d)%nat = 0%nat)) as [E|E].
    + assert (U = 0%nat) as -> by lia. assert (d = 0%nat) as -> by lia.
      cbn [plus]. ring.
    + rewrite Qc_of_nat_add. field.
      split; [done|]. rewrite <- Qc_of_nat_add.
      intros E'. apply Qc_of_nat_eq_0 in E'. lia.
Qed.

(** The median of the estimate does not decrease when, at every time,
    no fewer observations are unrecovered. *)
Lemma km_median_mono T obs1 obs2 :
  censored_at_horizon T obs1 → censored_at_horizon T obs2 →
  length obs1 = length obs2 → obs1 ≠ [] →
  (∀ t, (unrecovered obs1 t ≤ unrecovered obs2 t)%nat) →
  median_le (km_median obs1) (km_median obs2).
Proof.
  intros H1 H2 Hlen Hne1 Hmono.
  assert (Hne2 : obs2 ≠ []).
  { intros ->. destruct obs1; [done|]. cbn in Hlen. lia. }
  pose proof (max_duration_le T obs1 H1) as HM1.
  pose proof (max_duration_le T obs2 H2) as HM2.
  unfold km_median.
  set (f1 := λ t, bool_decide (km_survival obs1 t <= Q2Qc (1 # 2))).
  set (f2 := λ t, bool_decide (km_survival obs2 t <= Q2Qc (1 # 2))).
  destruct (find f2 (seq 0 (S (max_list obs2.*1)))) as [t2|] eqn:E2.
  2:{ by destruct (find f1 _). }
  apply find_seq_Some in E2 as (Ht2 & Hf2 & _).
  subst f2. cbn beta in Hf2. apply bool_decide_eq_true_1 in Hf2.
  rewrite (km_survival_closed T) in Hf2 by (done || lia).
  set (t' := Nat.min t2 (max_list obs1.*1)).
  assert (Hf1 : f1 t' = true).
  { subst f1. cbn beta. apply bool_decide_eq_true_2.
    rewrite (km_survival_closed T) by (done || lia).
    eapply Qcle_trans; [|exact Hf2]. rewrite Hlen.
    apply Qc_of_nat_ratio_le.
    transitivity (unrecovered obs1 t2); [|done].
    destruct (decide (t2 ≤ max_list obs1.*1)%nat) as [Hle|Hgt].
    - subst t'. by rewrite Nat.min_l.
    - subst t'. rewrite Nat.min_r by lia.
      by rewrite (unrecovered_beyond_max obs1 t2) by lia. }
  pose proof (find_seq_spec f1 (S (max_list obs1.*1))) as Hspec.
  destruct (find f1 (seq 0 (S (max_list obs1.*1)))) as [t1|].
  - destruct Hspec as (_ & _ & Hmin). cbn.
    destruct (decide (t1 ≤ t2)%nat) as [|Hgt]; [done|].
    rewrite Hmin in Hf1 by lia. done.
  - rewrite Hspec in Hf1 by lia. done.
Qed.

(** ** Raising the threshold *)

Lemma leb_trans (a b c : float64) :
  leb a b = true → leb b c = true → leb a c = true.
Proof.
  destruct a, b, c; cbn; try done. intros H1 H2.
  apply bool_decide_eq_true_1 in H1, H2. apply bool_decide_eq_true_2.
  by eapply Qcle_trans.
Qed.

Lemma zip_fmap_diag {A B C} (f : A → B) (g : A → C) (l : list A) :
  zip (f <$> l) (g <$> l) = (λ x, (f x, g x)) <$> l.
Proof. induction l as [|x l IH]; cbn; [done|]. by rewrite <- IH. Qed.

Lemma scan_observations ndvi_stack thr :
  let h := height ndvi_stack in
  let w := width ndvi_stack in
  let mask := make_flood_mask h w in
  let st := event_time_scan ndvi_stack thr mask in
  zip (mask_select st.1 mask) (mask_select st.2 mask)
    = pixel_observation ndvi_stack thr <$> masked_pixels mask h w.
Proof.
  intros h w mask st.
  pose proof (scan_steps_shape ndvi_stack thr mask (time_steps ndvi_stack))
    as [Hs1 Hs2].
  fold (event_time_scan ndvi_stack thr mask) in Hs1, Hs2. fold st in Hs1, Hs2.
  unfold shape in Hs1, Hs2. injection Hs1 as Hr1 Hc1. injection Hs2 as Hr2 Hc2.
  unfold mask_select. rewrite Hr1, Hc1, Hr2, Hc2. fold h w.
  fold (masked_pixels mask h w). rewrite zip_fmap_diag.
  apply Forall_fmap_ext, Forall_forall. intros [r c] Hin.
  apply list_elem_of_filter in Hin as [Hm _]. cbn [fst snd] in *.
  destruct (scan_steps_pixel ndvi_stack thr mask (time_steps ndvi_stack) r c)
    as [Ht He].
  rewrite Hm in Ht, He. unfold pixel_observation. cbn [fst snd].
  subst st. unfold event_time_scan. by rewrite Ht, He.
Qed.

Lemma pixel_observations_censored ndvi_stack thr (l : list (nat * nat)) :
  censored_at_horizon (time_steps ndvi_stack)
    (pixel_observation ndvi_stack thr <$> l).
Proof.
  unfold censored_at_horizon. apply Forall_fmap, Forall_forall.
  intros [r c] _. unfold pixel_observation. cbn.
  destruct (first_healed _ _ _ _ _) as [j|] eqn:E; cbn.
  - apply find_seq_Some in E as (Hj & _). split; [lia|done].
  - done.
Qed.

(** A pixel recovered by time [t] under the higher threshold is recovered
    by time [t] under the lower one. *)
Lemma pixel_observation_mono ndvi_stack thr1 thr2 r c t :
  leb (cell thr1 r c) (cell thr2 r c) = true →
  let o1 := pixel_observation ndvi_stack thr1 (r, c) in
  let o2 := pixel_observation ndvi_stack thr2 (r, c) in
  (o2.1 ≤ t)%nat ∧ o2.2 ≠ 0%Z → (o1.1 ≤ t)%nat ∧ o1.2 ≠ 0%Z.
Proof.
  intros Hthr o1 o2. subst o1 o2. unfold pixel_observation. cbn [fst snd].
  destruct (first_healed ndvi_stack thr2 r c _) as [j2|] eqn:E2; cbn;
    [|by intros [_ ?]].
  intros [Ht _]. apply find_seq_Some in E2 as (Hj2 & Hh2 & _).
  assert (Hh1 : pixel_healed ndvi_stack thr1 r c j2 = true).
  { unfold pixel_healed, geb in *. by eapply leb_trans. }
  pose proof (find_seq_spec (pixel_healed ndvi_stack thr1 r c)
                (time_steps ndvi_stack)) as Hspec.
  unfold first_healed.
  destruct (find _ (seq 0 (time_steps ndvi_stack))) as [j1|]; cbn.
  - destruct Hspec as (_ & _ & Hmin). split; [|done].
    destruct (decide (j1 ≤ j2)%nat) as [|Hgt]; [lia|].
    rewrite Hmin in Hh1 by lia. done.
  - rewrite Hspec in Hh1 by done. done.
Qed.

(** C9.  For one NDVI stack (and the flood mask of its shape) and two
    threshold grids with [thr1 <= thr2] at every pixel, the median recovery
    time that the scan and the Kaplan-Meier fit produce under [thr2] is at
    least the one produced under [thr1]. *)
Theorem median_monotone_in_threshold ndvi_stack thr1 thr2 :
  shape thr1 = (height ndvi_stack, width ndvi_stack) →
  shape thr2 = (height ndvi_stack, width ndvi_stack) →
  (∀ r c, (r < height ndvi_stack)%nat → (c < width ndvi_stack)%nat →
          leb (cell thr1 r c) (cell thr2 r c) = true) →
  median_le
    (median_recovery_time
       (survival_of_threshold kaplan_meier ndvi_stack thr1).1)
    (median_recovery_time
       (survival_of_threshold kaplan_meier ndvi_stack thr2).1).
Proof.
  intros _ _ Hthr. unfold survival_of_threshold. cbv zeta.
  set (h := height ndvi_stack). set (w := width ndvi_stack).
  set (mask := make_flood_mask h w).
  assert (Hlen : ∀ thr,
    length (mask_select (event_time_scan ndvi_stack thr mask).1 mask)
      = masked_count mask h w).
  { intros thr. rewrite mask_select_length.
    pose proof (scan_steps_shape ndvi_stack thr mask (time_steps ndvi_stack))
      as [Hs _].
    unfold shape in Hs. injection Hs as Hr Hc.
    unfold event_time_scan. by rewrite Hr, Hc. }
  rewrite !Hlen.
  case_bool_decide as Hpos; cbn [fst median_recovery_time];
    [|cbn; lia].
  unfold kaplan_meier.
  pose proof (scan_observations ndvi_stack thr1) as Ho1.
  pose proof (scan_observations ndvi_stack thr2) as Ho2.
  cbv zeta in Ho1, Ho2. fold h w mask in Ho1, Ho2. rewrite Ho1, Ho2.
  apply (km_median_mono (time_steps ndvi_stack)).
  - apply pixel_observations_censored.
  - apply pixel_observations_censored.
  - by rewrite !length_fmap.
  - intros E. apply fmap_nil_inv in E.
    unfold masked_count in Hpos. rewrite E in Hpos. cbn in Hpos. lia.
  - intros t. unfold unrecovered. apply filter_length_fmap_mono.
    intros [r c] Hin Hun Hrec. apply Hun.
    apply list_elem_of_filter in Hin as [_ Hin].
    apply elem_of_pixels in Hin as [Hr Hc].
    by apply (pixel_observation_mono ndvi_stack thr1 thr2 r c t (Hthr r c Hr Hc)).
Qed.

Lemma median_monotone_in_threshold_witness :
  median_le
    (median_recovery_time
       (survival_of_threshold kaplan_meier sample_stack
                              sample_threshold_low).1)
    (median_recovery_time
       (survival_of_threshold kaplan_meier sample_stack
                              sample_threshold_high).1).
Proof.
  apply (median_monotone_in_threshold sample_stack sample_threshold_low
           sample_threshold_high).
  - reflexivity.
  - reflexivity.
  - intros r c _ _. vm_compute. reflexivity.
Defined.

Example sample_stack_medians :
  median_recovery_time
    (survival_of_threshold kaplan_meier sample_stack sample_threshold_low).1
    = MedianAt 2 ∧
  median_recovery_time
    (survival_of_threshold kaplan_meier sample_stack sample_threshold_high).1
    = MedianAt 3.
Proof. vm_compute. split; reflexivity. Qed.

(** * Further properties of the code *)

(** ** Index calculator on float64 bands *)

(** X2.  On float64 bands: a cell of [calculate_ndvi] whose red or
    near-infrared input is not-a-number is not-a-number; at a cell where
    the red value [x] and the near-infrared value [y] are finite, the
    output is not-a-number exactly when [x + y = 0], it is
    [(y - x) / (y + x)] otherwise, and it lies in [[-1, 1]] when both are
    non-negative with a nonzero sum. *)
Theorem calculate_ndvi_float64_spec (red_band nir_band : ndarray float64)
    (r c : nat) :
  let v := cell (calculate_ndvi_dtype (Float64Band red_band)
                                      (Float64Band nir_band)) r c in
  (is_nan (cell red_band r c) = true ∨ is_nan (cell nir_band r c) = true →
   v = NaN) ∧
  (∀ x y, cell red_band r c = Fin x → cell nir_band r c = Fin y →
     (v = NaN ↔ x + y = 0) ∧
     (x + y ≠ 0 → v = Fin ((y - x) / (y + x))) ∧
     (0 <= x → 0 <= y → x + y ≠ 0 →
        ∃ q, v = Fin q ∧ - (1) <= q ∧ q <= 1)).
Proof.
  intros v. subst v. unfold calculate_ndvi_dtype, calculate_ndvi. cbn. split.
  - destruct (cell red_band r c), (cell nir_band r c); cbn; try done.
    intros [?|?]; done.
  - intros x y -> ->. cbn.
    destruct (decide (y + x = 0)) as [E|E].
    + rewrite bool_decide_eq_true_2 by done. cbn.
      apply Qc_sum_comm_zero in E. repeat split; done.
    + rewrite bool_decide_eq_false_2 by done. cbn.
      rewrite decide_False by done.
      assert (E' : x + y ≠ 0) by (by rewrite <- Qc_sum_comm_zero).
      repeat split; try done.
      intros Hx Hy _. eexists. split; [done|].
      by apply normalized_difference_range.
Qed.

(** X3.  On float64 bands, exchanging the two bands negates every cell of
    [calculate_ndvi] (not-a-number cells stay not-a-number), and
    [calculate_ndwi] of a green and a near-infrared band is the negation
    of [calculate_ndvi] with the green band in the place of the red one. *)
Theorem calculate_ndvi_antisymmetric (a b : ndarray float64) (r c : nat) :
  cell (calculate_ndvi_dtype (Float64Band a) (Float64Band b)) r c
    = fneg (cell (calculate_ndvi_dtype (Float64Band b) (Float64Band a)) r c) ∧
  cell (calculate_ndwi_dtype (Float64Band a) (Float64Band b)) r c
    = fneg (cell (calculate_ndvi_dtype (Float64Band a) (Float64Band b)) r c).
Proof.
  unfold calculate_ndvi_dtype, calculate_ndwi_dtype, calculate_ndvi,
    calculate_ndwi. cbn.
  destruct (cell a r c) as [|x], (cell b r c) as [|y]; cbn; try done.
  assert (Hsym : x + y = 0 ↔ y + x = 0) by (by rewrite Qcplus_comm).
  split.
  - case_bool_decide as E1; case_bool_decide as E2; cbn;
      try done; try tauto.
    rewrite !decide_False by done. cbn. f_equal. by field.
  - case_bool_decide as E1; case_bool_decide as E2; cbn;
      try done; try tauto.
    rewrite !decide_False by done. cbn. f_equal. by field.
Qed.

(** X1.  On float64 bands: a cell of [calculate_ndwi] whose green or
    near-infrared input is not-a-number is not-a-number; at a cell where
    the green value [x] and the near-infrared value [y] are finite, the
    output is not-a-number exactly when [x + y = 0], it is
    [(x - y) / (x + y)] otherwise, and it lies in [[-1, 1]] when both are
    non-negative with a nonzero sum. *)
Theorem calculate_ndwi_cell_spec (green_band nir_band : ndarray float64)
    (r c : nat) :
  let v := cell (calculate_ndwi_dtype (Float64Band green_band)
                                      (Float64Band nir_band)) r c in
  (is_nan (cell green_band r c) = true ∨ is_nan (cell nir_band r c) = true →
   v = NaN) ∧
  (∀ x y, cell green_band r c = Fin x → cell nir_band r c = Fin y →
     (v = NaN ↔ x + y = 0) ∧
     (x + y ≠ 0 → v = Fin ((x - y) / (x + y))) ∧
     (0 <= x → 0 <= y → x + y ≠ 0 →
        ∃ q, v = Fin q ∧ - (1) <= q ∧ q <= 1)).
Proof.
  intros v. subst v. unfold calculate_ndwi_dtype, calculate_ndwi. cbn. split.
  - destruct (cell green_band r c), (cell nir_band r c); cbn; try done.
    intros [?|?]; done.
  - intros x y -> ->. cbn.
    destruct (decide (x + y = 0)) as [E|E].
    + rewrite bool_decide_eq_true_2 by done. cbn. repeat split; done.
    + rewrite bool_decide_eq_false_2 by done. cbn.
      rewrite decide_False by done. repeat split; try done.
      intros Hx Hy _. eexists. split; [done|].
      apply (normalized_difference_range y x); try done.
      by rewrite Qcplus_comm.
Qed.

(** ** Time-series aggregator *)

Lemma omap_id_prefix {A} (l : list (option A)) (k : nat) :
  (∀ i o, (i < k)%nat → l !! i = Some o → is_Some o) →
  (∀ i o, (k ≤ i)%nat → l !! i = Some o → o = None) →
  length (omap id l) = Nat.min k (length l) ∧
  ∀ i x, l !! i = Some (Some x) → omap id l !! i = Some x.
Proof.
  revert k. induction l as [|o l IH]; intros k Hin Hout.
  - split; [by rewrite Nat.min_0_r|done].
  - destruct k as [|k].
    + assert (o = None) as -> by (by apply (Hout 0%nat); [lia|]).
      cbn. destruct (IH 0%nat) as [IHlen IHlook].
      * intros i o' Hi. lia.
      * intros i o' _ Hi. by apply (Hout (S i)); [lia|].
      * split; [done|]. intros [|i] x Hx; cbn in Hx; [done|].
        assert (Some x = None) by (by apply (Hout (S i)); [lia|]). done.
    + destruct (Hin 0%nat o) as [x ->]; [lia|done|]. cbn.
      destruct (IH k) as [IHlen IHlook].
      * intros i o' Hi Ho. apply (Hin (S i)); [lia|done].
      * intros i o' Hi Ho. apply (Hout (S i)); [lia|done].
      * split; [by rewrite IHlen|].
        intros [|i] y Hy; cbn in *; [congruence|]. by apply IHlook.
Qed.

Section AggregatorMore.

Variable nanmean : ndarray float64 → float64.
Variable nanstd : ndarray float64 → float64.

Lemma time_step_record_eq ndvi_series ndwi_series radar_series i d g :
  ndvi_series !! i = Some g →
  time_step_record nanmean nanstd ndvi_series ndwi_series radar_series i d
  = Some {| date := d;
            mean_ndvi := nanmean g;
            std_ndvi := nanstd g;
            mean_ndwi := nanmean <$> mjoin (ndwi_series !! i);
            mean_vv_backscatter :=
              (λ r, nanmean (vv_db r)) <$> mjoin (radar_series !! i) |}.
Proof.
  intros Hg. unfold time_step_record.
  rewrite bool_decide_eq_true_2 by (by eapply lookup_lt_Some).
  rewrite Hg. cbn. do 2 f_equal.
  - case_bool_decide as H; [done|].
    by rewrite (lookup_ge_None_2 ndwi_series i) by lia.
  - case_bool_decide as H; [done|].
    by rewrite (lookup_ge_None_2 radar_series i) by lia.
Qed.

Lemma time_step_record_none ndvi_series ndwi_series radar_series i d :
  (length ndvi_series ≤ i)%nat →
  time_step_record nanmean nanstd ndvi_series ndwi_series radar_series i d
  = None.
Proof.
  intros Hi. unfold time_step_record.
  by rewrite bool_decide_eq_false_2 by lia.
Qed.

(** The records that [process_time_series] returns on non-empty lists. *)
Lemma process_time_series_records dates ndvi_series ndwi_series radar_series :
  dates ≠ [] → ndvi_series ≠ [] →
  ∃ records,
    process_time_series nanmean nanstd dates ndvi_series ndwi_series
                        radar_series = inr records ∧
    length records = Nat.min (length dates) (length ndvi_series) ∧
    ∀ i d g, dates !! i = Some d → ndvi_series !! i = Some g →
      records !! i
      = Some {| date := d;
                mean_ndvi := nanmean g;
                std_ndvi := nanstd g;
                mean_ndwi := nanmean <$> mjoin (ndwi_series !! i);
                mean_vv_backscatter :=
                  (λ r, nanmean (vv_db r)) <$> mjoin (radar_series !! i) |}.
Proof.
  intros Hd Hn. unfold process_time_series.
  rewrite (bool_decide_eq_false_2 (dates = [])) by done.
  rewrite (bool_decide_eq_false_2 (ndvi_series = [])) by done.
  cbn [orb]. eexists. split; [done|].
  set (f := time_step_record nanmean nanstd ndvi_series ndwi_series
                             radar_series).
  destruct (omap_id_prefix (imap f dates) (length ndvi_series))
    as [Hlen Hlook].
  - intros i o Hi Ho. rewrite list_lookup_imap in Ho.
    destruct (dates !! i) as [d|]; [|done]. cbn in Ho.
    destruct (lookup_lt_is_Some_2 ndvi_series i Hi) as [g Hg].
    injection Ho as <-. subst f.
    rewrite (time_step_record_eq _ _ _ i d g Hg). by eexists.
  - intros i o Hi Ho. rewrite list_lookup_imap in Ho.
    destruct (dates !! i) as [d|]; [|done]. cbn in Ho.
    injection Ho as <-. subst f. by apply time_step_record_none.
  - split; [rewrite Hlen, length_imap; lia|].
    intros i d g Hdi Hg. apply Hlook.
    rewrite list_lookup_imap, Hdi. cbn. subst f.
    by rewrite (time_step_record_eq _ _ _ i d g Hg).
Qed.

(** X4.  On non-empty lists of different lengths [process_time_series]
    raises nothing: it returns [min(len(dates), len(ndvi_series))]
    records, the surplus dates being dropped, and the record at position
    [i] carries the [i]-th date, the statistics of the [i]-th NDVI grid,
    and the mean of the [i]-th NDWI grid and of the [i]-th VV band where
    that entry is supplied.  (Where it is not, the dictionary holds None,
    which the returned DataFrame shows as not-a-number beside the numbers
    of its column; that cell is left out here.) *)
Theorem process_time_series_truncates dates ndvi_series ndwi_series
    radar_series :
  dates ≠ [] → ndvi_series ≠ [] →
  ∃ records,
    process_time_series nanmean nanstd dates ndvi_series ndwi_series
                        radar_series = inr records ∧
    length records = Nat.min (length dates) (length ndvi_series) ∧
    (∀ i d g, dates !! i = Some d → ndvi_series !! i = Some g →
       ∃ rec, records !! i = Some rec ∧
              date rec = d ∧
              mean_ndvi rec = nanmean g ∧
              std_ndvi rec = nanstd g ∧
              (∀ w, ndwi_series !! i = Some (Some w) →
                    mean_ndwi rec = Some (nanmean w)) ∧
              (∀ m, radar_series !! i = Some (Some m) →
                    mean_vv_backscatter rec = Some (nanmean (vv_db m)))).
Proof.
  intros Hd Hn.
  destruct (process_time_series_records dates ndvi_series ndwi_series
              radar_series Hd Hn) as (records & Hres & Hlen & Hlook).
  exists records. split; [done|]. split; [done|].
  intros i d g Hdi Hg. eexists. split; [by apply Hlook|]. cbn.
  repeat split; try done.
  - intros w Hw. by rewrite Hw.
  - intros m Hm. by rewrite Hm.
Qed.

End AggregatorMore.

Lemma process_time_series_truncates_witness :
  ∃ records,
    process_time_series nanmean_exact (λ _, lit_0)
      [day 0; day 30; day 60] [sample_grid 30 100; sample_grid 35 100]
      [Some (sample_grid 10 100)] [] = inr records ∧
    length records = Nat.min 3 2 ∧
    (∀ i d g, [day 0; day 30; day 60] !! i = Some d →
       [sample_grid 30 100; sample_grid 35 100] !! i = Some g →
       ∃ rec, records !! i = Some rec ∧
              date rec = d ∧
              mean_ndvi rec = nanmean_exact g ∧
              std_ndvi rec = lit_0 ∧
              (∀ w, [Some (sample_grid 10 100)] !! i = Some (Some w) →
                    mean_ndwi rec = Some (nanmean_exact w)) ∧
              (∀ m, ([] : list (option RadarMetrics)) !! i = Some (Some m) →
                    mean_vv_backscatter rec
                      = Some (nanmean_exact (vv_db m)))).
Proof.
  apply (process_time_series_truncates nanmean_exact (λ _, lit_0)
           [day 0; day 30; day 60] [sample_grid 30 100; sample_grid 35 100]
           [Some (sample_grid 10 100)] []).
  - discriminate.
  - discriminate.
Defined.

(** ** Recovery rate estimator *)

Lemma post_flood_of_idemp ts fd :
  post_flood_of (post_flood_of ts fd) fd = post_flood_of ts fd.
Proof.
  unfold post_flood_of. induction ts as [|r ts IH]; [done|].
  rewrite filter_cons. case_decide as Hr; [|done].
  rewrite filter_cons, decide_True by done. by rewrite IH.
Qed.

Lemma post_flood_of_app ts1 ts2 fd :
  post_flood_of (ts1 ++ ts2) fd = post_flood_of ts1 fd ++ post_flood_of ts2 fd.
Proof. unfold post_flood_of. apply filter_app. Qed.

Lemma post_flood_of_before ts fd :
  Forall (λ r, (date r < fd)%Z) ts → post_flood_of ts fd = [].
Proof.
  unfold post_flood_of. induction 1 as [|r ts Hr _ IH]; [done|].
  rewrite filter_cons, decide_False; [done|].
  unfold datetime_geb. intros H. apply Z.leb_le in H. lia.
Qed.

Lemma post_flood_of_all ts fd :
  Forall (λ r, (fd ≤ date r)%Z) ts → post_flood_of ts fd = ts.
Proof.
  unfold post_flood_of. induction 1 as [|r ts Hr _ IH]; [done|].
  rewrite filter_cons, decide_True; [by rewrite IH|].
  unfold datetime_geb. by apply Z.leb_le.
Qed.

Lemma Qc_0_6_nonzero : Q2Qc (6 # 10) ≠ 0.
Proof. intros E. apply (f_equal this) in E. vm_compute in E. discriminate E. Qed.

Lemma Qc_div_pos (a b : Qc) : 0 < a → 0 < b → 0 < a / b.
Proof.
  intros Ha Hb. unfold Qclt, Qcdiv, Qcmult, Qcinv in *.
  cbn [this Q2Qc] in *. rewrite ?Qred_correct in *.
  apply Qlt_shift_div_l; [done|]. lra.
Qed.

Lemma Qc_pct_lt (κ : Qc) :
  κ < Q2Qc (6 # 10) → κ / Q2Qc (6 # 10) * Q2Qc 100 < Q2Qc 100.
Proof.
  intros H. unfold Qclt, Qcdiv, Qcmult, Qcinv in *.
  cbn [this Q2Qc] in *. rewrite ?Qred_correct in *. cbn in *. lra.
Qed.

Section RecoveryRateMore.

Variable polyfit_slope : list Z → list float64 → float64.

Lemma metrics_of_post_flood ts1 ts2 fd :
  post_flood_of ts1 fd = post_flood_of ts2 fd →
  calculate_recovery_metrics polyfit_slope ts1 fd
  = calculate_recovery_metrics polyfit_slope ts2 fd.
Proof. unfold calculate_recovery_metrics. by intros ->. Qed.

(** X5.  Records dated before the flood never influence the result:
    [calculate_recovery_metrics] gives the same dictionary on a series and
    on its post-flood subset, and inserting pre-flood records anywhere
    into a series changes nothing. *)
Theorem pre_flood_records_ignored ts fd :
  calculate_recovery_metrics polyfit_slope ts fd
    = calculate_recovery_metrics polyfit_slope (post_flood_of ts fd) fd ∧
  ∀ pre front back,
    Forall (λ r, (date r < fd)%Z) pre →
    ts = front ++ back →
    calculate_recovery_metrics polyfit_slope (front ++ pre ++ back) fd
      = calculate_recovery_metrics polyfit_slope ts fd.
Proof.
  split.
  - apply metrics_of_post_flood. by rewrite post_flood_of_idemp.
  - intros pre front back Hpre ->. apply metrics_of_post_flood.
    rewrite !post_flood_of_app, (post_flood_of_before pre fd Hpre). done.
Qed.

(** X6.  The current NDVI is the mean NDVI of the last post-flood record
    in input order, whatever the dates of the records before it: a record
    dated on or after the flood that is appended to any series becomes the
    current one, and all five fields are returned. *)
Theorem current_ndvi_is_last_in_order ts r fd :
  (fd ≤ date r)%Z →
  let m := calculate_recovery_metrics polyfit_slope (ts ++ [r]) fd in
  m !! "current_ndvi" = Some (PyFloat (mean_ndvi r)) ∧
  m !! "recovery_percentage"
    = Some (PyFloat (recovery_percentage_of lit_0_6 (mean_ndvi r))) ∧
  has_all_fields m.
Proof.
  intros Hr m. subst m. unfold calculate_recovery_metrics.
  rewrite post_flood_of_app, (post_flood_of_all [r] fd).
  2:{ by apply Forall_singleton. }
  rewrite last_snoc.
  pose proof (recovery_metrics_of_lookup polyfit_slope lit_0_6
                (post_flood_of ts fd ++ [r]) r fd) as (H1 & H2 & H3 & H4 & H5).
  unfold has_all_fields. rewrite H1, H2, H3, H4, H5. repeat split; by eexists.
Qed.

(** X7.  Whenever time_to_recovery_days is a value and not None, it is a
    positive number, the returned recovery_rate is positive, the current
    NDVI is below the baseline 0.6 and the recovery percentage is below
    100 (in exact arithmetic); so a series whose percentage is clamped at
    100 never has an estimate. *)
Theorem time_to_recovery_positive ts fd d :
  let m := calculate_recovery_metrics polyfit_slope ts fd in
  m !! "time_to_recovery_days" = Some (PyFloat d) →
  ∃ q ρ κ p,
    d = Fin q ∧ 0 < q ∧
    m !! "recovery_rate" = Some (PyFloat (Fin ρ)) ∧ 0 < ρ ∧
    m !! "current_ndvi" = Some (PyFloat (Fin κ)) ∧ κ < Q2Qc (6 # 10) ∧
    m !! "recovery_percentage" = Some (PyFloat (Fin p)) ∧ p < Q2Qc 100 ∧
    q * ρ = Q2Qc (6 # 10) - κ.
Proof.
  intros m Hd. subst m.
  destruct (decide (post_flood_of ts fd = [])) as [E|E].
  { rewrite (metrics_empty _ _ _ E) in Hd. by simplify_map_eq. }
  destruct (metrics_nonempty polyfit_slope _ _ E) as (rec & _ & Hm).
  rewrite Hm in *.
  pose proof (recovery_metrics_of_lookup polyfit_slope lit_0_6
                (post_flood_of ts fd) rec fd) as (H1 & H2 & H3 & H4 & _).
  rewrite H2 in Hd. rewrite H1, H3, H4.
  unfold days_to_recovery_of in Hd.
  destruct (recovery_rate_of polyfit_slope (post_flood_of ts fd) fd)
    as [|ρ]; [done|].
  destruct (mean_ndvi rec) as [|κ]; [cbn in Hd; by case_bool_decide|].
  cbn in Hd.
  case_bool_decide as Hρ; [|done]. case_bool_decide as Hκ; [|done].
  cbn in Hd.
  assert (Hρ0 : ρ ≠ 0) by (apply Qclt_not_eq in Hρ; congruence).
  rewrite decide_False in Hd by done. injection Hd as <-.
  assert (Hgap : 0 < Q2Qc (6 # 10) - κ) by qc_lra.
  exists ((Q2Qc (6 # 10) - κ) / ρ), ρ, κ, (κ / Q2Qc (6 # 10) * Q2Qc 100).
  assert (Hp : κ / Q2Qc (6 # 10) * Q2Qc 100 < Q2Qc 100)
    by by apply Qc_pct_lt.
  repeat split; try done.
  - by apply Qc_div_pos.
  - unfold recovery_percentage_of. cbn.
    rewrite (bool_decide_eq_true_2 (0 < Q2Qc (6 # 10))) by done.
    rewrite decide_False by apply Qc_0_6_nonzero. cbn.
    unfold py_min, lit_100, ltb. by rewrite bool_decide_eq_true_2.
  - by rewrite Qc_ratio_cancel.
Qed.

(** X8.  On a non-empty post-flood subset: a not-a-number current NDVI
    gives recovery_percentage 100 and no estimate; a current NDVI at or
    above the baseline 0.6 gives exactly 100 and no estimate; a negative
    current NDVI gives a negative recovery_percentage (there is no clamp
    at 0). *)
Theorem recovery_percentage_edges ts fd :
  post_flood_of ts fd ≠ [] →
  let m := calculate_recovery_metrics polyfit_slope ts fd in
  ∃ cur,
    m !! "current_ndvi" = Some (PyFloat cur) ∧
    (cur = NaN →
       m !! "recovery_percentage" = Some (PyFloat lit_100) ∧
       m !! "time_to_recovery_days" = Some PyNone) ∧
    (∀ κ, cur = Fin κ → Q2Qc (6 # 10) <= κ →
       m !! "recovery_percentage" = Some (PyFloat lit_100) ∧
       m !! "time_to_recovery_days" = Some PyNone) ∧
    (∀ κ, cur = Fin κ → κ < 0 →
       ∃ p, m !! "recovery_percentage" = Some (PyFloat (Fin p)) ∧ p < 0).
Proof.
  intros E m. subst m.
  destruct (metrics_nonempty polyfit_slope _ _ E) as (rec & _ & ->).
  pose proof (recovery_metrics_of_lookup polyfit_slope lit_0_6
                (post_flood_of ts fd) rec fd) as (_ & H2 & H3 & H4 & _).
  exists (mean_ndvi rec). rewrite H2, H3. split; [done|].
  unfold recovery_percentage_of, days_to_recovery_of.
  assert (Hb : gtb lit_0_6 lit_0 = true) by done. rewrite Hb.
  split; [|split].
  - intros ->. cbn. by rewrite andb_false_r.
  - intros κ -> Hκ. cbn. rewrite decide_False by apply Qc_0_6_nonzero.
    cbn. unfold py_min, lit_100, ltb.
    rewrite (bool_decide_eq_false_2 (κ < _)) by (by apply Qcle_not_lt).
    rewrite andb_false_r. split; [|done].
    rewrite bool_decide_eq_false_2; [done|].
    apply Qcle_not_lt.
    unfold Qcle, Qcdiv, Qcmult, Qcinv in *. cbn [this Q2Qc] in *.
    rewrite ?Qred_correct in *. cbn in *. lra.
  - intros κ -> Hκ. cbn. rewrite decide_False by apply Qc_0_6_nonzero.
    cbn. unfold py_min, lit_100, ltb.
    assert (Hneg : κ / Q2Qc (6 # 10) * Q2Qc 100 < 0).
    { unfold Qclt, Qcdiv, Qcmult, Qcinv in *. cbn [this Q2Qc] in *.
      rewrite ?Qred_correct in *. cbn in *. lra. }
    rewrite bool_decide_eq_true_2.
    + by eexists.
    + eapply Qclt_trans; [exact Hneg|done].
Qed.

End RecoveryRateMore.

Lemma time_to_recovery_positive_witness :
  let m := calculate_recovery_metrics ols_slope sample_series (day 0) in
  ∃ q ρ κ p,
    Fin (Q2Qc 90) = Fin q ∧ 0 < q ∧
    m !! "recovery_rate" = Some (PyFloat (Fin ρ)) ∧ 0 < ρ ∧
    m !! "current_ndvi" = Some (PyFloat (Fin κ)) ∧ κ < Q2Qc (6 # 10) ∧
    m !! "recovery_percentage" = Some (PyFloat (Fin p)) ∧ p < Q2Qc 100 ∧
    q * ρ = Q2Qc (6 # 10) - κ.
Proof.
  apply (time_to_recovery_positive ols_slope sample_series (day 0)
           (Fin (Q2Qc 90))).
  vm_compute. do 3 f_equal. apply Qc_is_canon. reflexivity.
Defined.

Lemma current_ndvi_is_last_in_order_witness :
  let m := calculate_recovery_metrics ols_slope
             (sample_series ++ [sample_record 10 20 100]) (day 0) in
  m !! "current_ndvi" = Some (PyFloat (mean_ndvi (sample_record 10 20 100))) ∧
  m !! "recovery_percentage"
    = Some (PyFloat (recovery_percentage_of lit_0_6
                       (mean_ndvi (sample_record 10 20 100)))) ∧
  has_all_fields m.
Proof.
  apply (current_ndvi_is_last_in_order ols_slope sample_series
           (sample_record 10 20 100) (day 0)).
  vm_compute. discriminate.
Defined.

Lemma recovery_percentage_edges_witness :
  (let m := calculate_recovery_metrics ols_slope [nan_record 30] (day 0) in
   m !! "recovery_percentage" = Some (PyFloat lit_100) ∧
   m !! "time_to_recovery_days" = Some PyNone) ∧
  (let m := calculate_recovery_metrics ols_slope
              [sample_record 0 30 100; sample_record 30 70 100] (day 0) in
   m !! "recovery_percentage" = Some (PyFloat lit_100) ∧
   m !! "time_to_recovery_days" = Some PyNone) ∧
  (let m := calculate_recovery_metrics ols_slope
              [sample_record 0 30 100; sample_record 30 (-10) 100] (day 0) in
   ∃ p, m !! "recovery_percentage" = Some (PyFloat (Fin p)) ∧ p < 0).
Proof.
  split; [|split].
  - destruct (recovery_percentage_edges ols_slope [nan_record 30] (day 0))
      as (cur & Hcur & Hnan & _ & _).
    { vm_compute. discriminate. }
    apply Hnan. vm_compute in Hcur. congruence.
  - destruct (recovery_percentage_edges ols_slope
                [sample_record 0 30 100; sample_record 30 70 100] (day 0))
      as (cur & Hcur & _ & Hhigh & _).
    { vm_compute. discriminate. }
    apply (Hhigh (Q2Qc (70 # 100))).
    + vm_compute in Hcur. injection Hcur as <-. reflexivity.
    + vm_compute. discriminate.
  - destruct (recovery_percentage_edges ols_slope
                [sample_record 0 30 100; sample_record 30 (-10) 100] (day 0))
      as (cur & Hcur & _ & _ & Hneg).
    { vm_compute. discriminate. }
    apply (Hneg (Q2Qc (-10 # 100))).
    + vm_compute in Hcur. injection Hcur as <-. reflexivity.
    + vm_compute. reflexivity.
Defined.

(** ** Flood mask, confidence score and recovery map *)

Lemma count_slice (n : nat) :
  length (filter (λ i, (150 ≤ i < 350)%nat) (seq 0 n))
  = (Nat.min n 350 - 150)%nat.
Proof.
  induction n as [|n IH]; [done|].
  rewrite seq_S, filter_app, length_app, IH. cbn [plus].
  rewrite filter_cons, filter_nil. case_decide; cbn; lia.
Qed.

Lemma count_row (C : nat → Prop) `{∀ c, Decision (C c)}
    (R : nat → Prop) `{∀ r, Decision (R r)} (r : nat) (cols : list nat) :
  length (filter (λ p : nat * nat, R p.1 ∧ C p.2)
                 (c ← cols; [(r, c)]))
  = if decide (R r) then length (filter C cols) else 0%nat.
Proof.
  induction cols as [|c cols IH]; [by case_decide|].
  rewrite bind_cons. cbn [app]. rewrite !filter_cons. cbn [fst snd].
  repeat case_decide; cbn [length]; rewrite ?IH;
    repeat case_decide; tauto || lia.
Qed.

Lemma count_grid (C : nat → Prop) `{∀ c, Decision (C c)}
    (R : nat → Prop) `{∀ r, Decision (R r)} (rows cols : list nat) :
  length (filter (λ p : nat * nat, R p.1 ∧ C p.2)
                 (r ← rows; c ← cols; [(r, c)]))
  = (length (filter R rows) * length (filter C cols))%nat.
Proof.
  induction rows as [|r rows IH]; [done|].
  rewrite bind_cons, filter_app, length_app.
  rewrite IH, (count_row C R r cols), filter_cons.
  case_decide; cbn; lia.
Qed.

Lemma masked_count_formula (h w : nat) :
  masked_count (make_flood_mask h w) h w
    = ((Nat.min h 350 - 150) * (Nat.min w 350 - 150))%nat.
Proof.
  unfold masked_count, masked_pixels.
  rewrite (filter_length_ext _
             (λ p : nat * nat, (150 ≤ p.1 < 350)%nat
                               ∧ (150 ≤ p.2 < 350)%nat)).
  - unfold pixels.
    pose proof (count_grid (λ c, (150 ≤ c < 350)%nat)
                  (λ r, (150 ≤ r < 350)%nat) (seq 0 h) (seq 0 w)) as Hgrid.
    cbv beta in Hgrid. by rewrite Hgrid, !count_slice.
  - apply Forall_forall. intros [r c] _. cbn [fst snd].
    rewrite flood_mask_cell. apply bool_decide_eq_true.
Qed.

(** X10.  The flood mask [flood_mask[150:350, 150:350] = True] is clipped
    to the grid: it holds [(min(h, 350) - 150) * (min(w, 350) - 150)]
    pixels (a factor being 0 when the grid has at most 150 rows or
    columns), never more than 200 * 200, and none exactly when the grid
    has at most 150 rows or at most 150 columns. *)
Theorem flood_mask_count (h w : nat) :
  masked_count (make_flood_mask h w) h w
    = ((Nat.min h 350 - 150) * (Nat.min w 350 - 150))%nat ∧
  (masked_count (make_flood_mask h w) h w ≤ 200 * 200)%nat ∧
  (masked_count (make_flood_mask h w) h w = 0%nat
     ↔ (h ≤ 150)%nat ∨ (w ≤ 150)%nat).
Proof.
  rewrite masked_count_formula. split; [done|]. split; nia.
Qed.

Lemma observed_le_masked mask e h w :
  (observed_count mask e h w ≤ masked_count mask h w)%nat.
Proof.
  unfold observed_count, masked_count, masked_pixels.
  induction (pixels h w) as [|p l IH]; [done|].
  rewrite !filter_cons. repeat case_decide; cbn; tauto || lia.
Qed.

(** The confidence score and the fit log of [survival_of_threshold]. *)
Lemma survival_confidence fitter ndvi_stack thr :
  let h := height ndvi_stack in
  let w := width ndvi_stack in
  let mask := make_flood_mask h w in
  let st := event_time_scan ndvi_stack thr mask in
  let masked := masked_count mask h w in
  let observed := observed_count mask st.2 h w in
  let out := survival_of_threshold fitter ndvi_stack thr in
  recovery_map out.1 = st.1 ∧
  length (mask_select st.1 mask) = masked ∧
  length (mask_select st.2 mask) = masked ∧
  (masked ≠ 0%nat →
     confidence_score out.1
       = Fin (Qc_of_nat observed / Qc_of_nat masked * Q2Qc 100) ∧
     median_recovery_time out.1
       = fitter (mask_select st.1 mask) (mask_select st.2 mask) ∧
     out.2 = [FitCall (mask_select st.1 mask) (mask_select st.2 mask)]) ∧
  (masked = 0%nat →
     confidence_score out.1 = lit_0 ∧
     median_recovery_time out.1 = MedianAt 0 ∧ out.2 = []).
Proof.
  intros h w mask st masked observed out. subst out.
  unfold survival_of_threshold. cbv zeta. fold h w. fold mask. fold st.
  pose proof (scan_steps_shape ndvi_stack thr mask (time_steps ndvi_stack))
    as [Hs1 Hs2].
  fold (event_time_scan ndvi_stack thr mask) in Hs1, Hs2. fold st in Hs1, Hs2.
  unfold shape in Hs1, Hs2. injection Hs1 as Hr1 Hc1. injection Hs2 as Hr2 Hc2.
  fold h in Hr1, Hr2. fold w in Hc1, Hc2.
  assert (Hl1 : length (mask_select st.1 mask) = masked).
  { by rewrite mask_select_length, Hr1, Hc1. }
  assert (Hl2 : length (mask_select st.2 mask) = masked).
  { by rewrite mask_select_length, Hr2, Hc2. }
  rewrite Hl1.
  split; [by case_bool_decide|]. split; [done|]. split; [done|].
  case_bool_decide as Hpos; cbn [fst snd confidence_score
                                  median_recovery_time]; split; try lia.
  - intros _. split; [|done]. unfold np_mean. rewrite Hl2.
    unfold mask_select. rewrite Hr2, Hc2.
    rewrite (sum_masked_events mask st.2 (pixels h w))
      by apply scan_events_binary.
    fold (observed_count mask st.2 h w). fold observed.
    unfold of_nat, of_Z, div, mul, lit_100, lift2.
    fold (Qc_of_nat observed) (Qc_of_nat masked).
    rewrite decide_False; [done|].
    intros E. apply Qc_of_nat_eq_0 in E. lia.
  - done.
Qed.

(** X9.  For every stack and threshold grid the confidence score is a
    number between 0 and 100 (never not-a-number): the observed count
    never exceeds the masked count, and an empty mask gives 0. *)
Theorem confidence_score_bounds fitter ndvi_stack thr :
  ∃ q, confidence_score (survival_of_threshold fitter ndvi_stack thr).1
         = Fin q ∧ 0 <= q ∧ q <= Q2Qc 100.
Proof.
  pose proof (survival_confidence fitter ndvi_stack thr)
    as (_ & _ & _ & Hpos & Hzero). cbv zeta in Hpos, Hzero.
  set (mask := make_flood_mask (height ndvi_stack) (width ndvi_stack)) in *.
  set (masked := masked_count mask (height ndvi_stack) (width ndvi_stack))
    in *.
  set (observed := observed_count mask _ _ _) in *.
  destruct (decide (masked = 0%nat)) as [E|E].
  - destruct (Hzero E) as (-> & _). exists 0. by repeat split.
  - destruct (Hpos E) as (-> & _). eexists. split; [done|].
    assert (Hle : (observed ≤ masked)%nat) by apply observed_le_masked.
    assert (Hm : Qc_of_nat masked ≠ 0).
    { intros E'. by apply Qc_of_nat_eq_0 in E'. }
    pose proof (Qc_of_nat_ratio_le 0 observed masked ltac:(lia)) as H0.
    pose proof (Qc_of_nat_ratio_le observed masked masked Hle) as H1.
    replace (Qc_of_nat 0 / Qc_of_nat masked) with 0 in H0
      by (change (Qc_of_nat 0) with 0; field; done).
    replace (Qc_of_nat masked / Qc_of_nat masked) with 1 in H1
      by (field; done).
    revert H0 H1. generalize (Qc_of_nat observed / Qc_of_nat masked).
    intros ratio H0 H1. split; qc_lra.
Qed.

(** X11.  With at least one time step, every cell of the returned
    recovery map is between 1 and [time_steps], so the heat map's
    [masked_where(recovery_map == 0)] hides no cell; with no time step
    every cell is 0 and all are hidden. *)
Theorem recovery_map_range fitter ndvi_stack baseline_ndvi :
  ∃ res,
    (run_survival_analysis (Some fitter) ndvi_stack baseline_ndvi).1
      = Some res ∧
    ((1 ≤ time_steps ndvi_stack)%nat →
       ∀ r c, (1 ≤ cell (recovery_map res) r c ≤ time_steps ndvi_stack)%nat
              ∧ cell (heatmap_hidden (recovery_map res)) r c = false) ∧
    (time_steps ndvi_stack = 0%nat →
       ∀ r c, cell (recovery_map res) r c = 0%nat
              ∧ cell (heatmap_hidden (recovery_map res)) r c = true).
Proof.
  destruct (run_survival_analysis_map fitter ndvi_stack baseline_ndvi)
    as (res & Hres & Hmap).
  exists res. split; [done|].
  assert (Hcell : ∀ r c, ∃ first,
    cell (recovery_map res) r c
      = from_option S (time_steps ndvi_stack) first ∧
    ∀ j, first = Some j → (j < time_steps ndvi_stack)%nat).
  { intros r c. rewrite Hmap. unfold event_time_scan.
    destruct (scan_steps_pixel ndvi_stack
                (arr_map (λ b, mul b lit_0_9) baseline_ndvi)
                (make_flood_mask (height ndvi_stack) (width ndvi_stack))
                (time_steps ndvi_stack) r c) as [Ht _].
    eexists. split; [exact Ht|].
    intros j Hj. destruct (cell (make_flood_mask _ _) r c); [|done].
    by apply find_seq_Some in Hj as (? & _). }
  split.
  - intros HT r c. destruct (Hcell r c) as (first & Ht & Hj).
    unfold heatmap_hidden. cbn [cell arr_map]. rewrite Ht.
    destruct first as [j|]; cbn.
    + specialize (Hj j eq_refl). split; [lia|done].
    + split; [lia|]. apply Nat.eqb_neq. lia.
  - intros HT r c. destruct (Hcell r c) as (first & Ht & Hj).
    unfold heatmap_hidden. cbn [cell arr_map]. rewrite Ht.
    destruct first as [j|]; cbn.
    + specialize (Hj j eq_refl). lia.
    + by rewrite HT.
Qed.

(** ** Simulated bands *)

Lemma simulate_band_cell draw a b r c u :
  cell draw r c = Fin u →
  cell (simulate_band draw (Fin a) (Fin b)) r c = Fin (u * a + b).
Proof. intros Hu. unfold simulate_band. cbn. by rewrite Hu. Qed.

(** X12.  With samples of [0, 1): when both the red and the near-infrared
    band are supplied, [load_sentinel2_data] returns the four bands as
    given; when either is missing, all four returned bands are simulated
    500 by 500 grids, a supplied short-wave or green band being discarded,
    the red cells lie in [[0.1, 0.4]] and the near-infrared ones in
    [[0.3, 0.7]], and [calculate_ndvi] of the returned bands has a number
    of [[-1, 1]] in every cell, never not-a-number. *)
Theorem load_sentinel2_data_spec rng red_band nir_band swir_band green_band :
  unit_samples (rand_red rng) → unit_samples (rand_nir rng) →
  let d := load_sentinel2_data rng red_band nir_band swir_band green_band in
  (is_Some red_band → is_Some nir_band →
     d = {| s2_red := red_band; s2_nir := nir_band;
            s2_swir := swir_band; s2_green := green_band |}) ∧
  (red_band = None ∨ nir_band = None →
     ∃ red nir,
       d = {| s2_red := Some red; s2_nir := Some nir;
              s2_swir := Some (sim_swir (simulated_sentinel2 rng));
              s2_green := Some (sim_green (simulated_sentinel2 rng)) |} ∧
       shape red = (sim_height, sim_width) ∧
       shape nir = (sim_height, sim_width) ∧
       ∀ r c, ∃ x y q,
         cell red r c = Fin x ∧ Q2Qc (1 # 10) <= x ∧ x <= Q2Qc (4 # 10) ∧
         cell nir r c = Fin y ∧ Q2Qc (3 # 10) <= y ∧ y <= Q2Qc (7 # 10) ∧
         cell (calculate_ndvi red nir) r c = Fin q ∧
         - (1) <= q ∧ q <= 1).
Proof.
  intros Hred Hnir d. subst d. split.
  - intros [r ->] [n ->]. done.
  - intros Hmiss.
    exists (sim_red (simulated_sentinel2 rng)),
           (sim_nir (simulated_sentinel2 rng)).
    split; [|split; [done|split; [done|]]].
    { unfold load_sentinel2_data.
      destruct Hmiss as [-> | ->]; [done|]. by destruct red_band. }
    intros r c.
    destruct (Hred r c) as (u & Hu & Hu0 & Hu1).
    destruct (Hnir r c) as (v & Hv & Hv0 & Hv1).
    pose proof (simulate_band_cell (rand_red rng) (Q2Qc (3 # 10))
                  (Q2Qc (1 # 10)) r c u Hu) as Hx.
    pose proof (simulate_band_cell (rand_nir rng) (Q2Qc (4 # 10))
                  (Q2Qc (3 # 10)) r c v Hv) as Hy.
    set (x := u * Q2Qc (3 # 10) + Q2Qc (1 # 10)) in *.
    set (y := v * Q2Qc (4 # 10) + Q2Qc (3 # 10)) in *.
    assert (Hx0 : Q2Qc (1 # 10) <= x ∧ x <= Q2Qc (4 # 10)).
    { subst x. split; qc_lra. }
    assert (Hy0 : Q2Qc (3 # 10) <= y ∧ y <= Q2Qc (7 # 10)).
    { subst y. split; qc_lra. }
    assert (Hxpos : 0 <= x) by (destruct Hx0; qc_lra).
    assert (Hypos : 0 <= y) by (destruct Hy0; qc_lra).
    assert (Hsum : x + y ≠ 0).
    { intros E. assert (0 < x + y) by (destruct Hx0, Hy0; qc_lra).
      rewrite E in *. by apply Qclt_not_eq in H. }
    exists x, y, ((y - x) / (y + x)).
    cbn [sim_red sim_nir simulated_sentinel2]. unfold lit.
    rewrite Hx, Hy. destruct Hx0, Hy0.
    repeat split; try done.
    + unfold calculate_ndvi, arr_map2, arr_map, np_where. cbn [cell].
      rewrite Hx, Hy. cbn.
      rewrite bool_decide_eq_false_2 by (by rewrite Qcplus_comm).
      cbn. by rewrite decide_False by (by rewrite Qcplus_comm).
    + by apply normalized_difference_range.
    + by apply normalized_difference_range.
Qed.

Lemma load_sentinel2_data_spec_witness :
  let d := load_sentinel2_data sample_rng None None None None in
  (is_Some (None : option (ndarray float64)) →
   is_Some (None : option (ndarray float64)) →
     d = {| s2_red := None; s2_nir := None;
            s2_swir := None; s2_green := None |}) ∧
  ((None : option (ndarray float64)) = None
   ∨ (None : option (ndarray float64)) = None →
     ∃ red nir,
       d = {| s2_red := Some red; s2_nir := Some nir;
              s2_swir := Some (sim_swir (simulated_sentinel2 sample_rng));
              s2_green := Some (sim_green (simulated_sentinel2 sample_rng)) |} ∧
       shape red = (sim_height, sim_width) ∧
       shape nir = (sim_height, sim_width) ∧
       ∀ r c, ∃ x y q,
         cell red r c = Fin x ∧ Q2Qc (1 # 10) <= x ∧ x <= Q2Qc (4 # 10) ∧
         cell nir r c = Fin y ∧ Q2Qc (3 # 10) <= y ∧ y <= Q2Qc (7 # 10) ∧
         cell (calculate_ndvi red nir) r c = Fin q ∧
         - (1) <= q ∧ q <= 1).
Proof.
  apply (load_sentinel2_data_spec sample_rng None None None None).
  - intros r c. exists (Q2Qc (1 # 2)).
    split; [reflexivity|]. split; vm_compute; [discriminate|reflexivity].
  - intros r c. exists (Q2Qc (1 # 2)).
    split; [reflexivity|]. split; vm_compute; [discriminate|reflexivity].
Defined.

(** ** Processing pipelines *)

Lemma py_range_nonpos (n : Z) : (n ≤ 0)%Z → py_range n = [].
Proof. intros Hn. unfold py_range. by replace (Z.to_nat n) with 0%nat by lia. Qed.

Lemma py_range_lookup (n : Z) (i : nat) :
  (i < Z.to_nat n)%nat → py_range n !! i = Some i.
Proof. intros Hi. unfold py_range. by rewrite lookup_seq_lt. Qed.

Lemma add_days_ge fd (k : Z) : (0 ≤ k)%Z → (fd ≤ add_days fd k)%Z.
Proof. unfold add_days, microseconds_per_day. lia. Qed.

Section PipelineFacts.

Variable nanmean : ndarray float64 → float64.
Variable nanstd : ndarray float64 → float64.
Variable polyfit_slope : list Z → list float64 → float64.
Variable pow10 : float64 → float64.

(** The aggregated series of a pipeline: [frame_of i] is the NDVI grid of
    step [i], [ndwi_of i] the grid passed as NDWI and [radar] the radar
    metrics repeated for every step. *)
Lemma pipeline_time_series fd (n : Z) (frame_of ndwi_of : nat → ndarray float64)
    (radar : RadarMetrics) :
  let result :=
    process_time_series nanmean nanstd (acquisition_dates fd n)
      (frame_of <$> py_range n) (Some <$> (ndwi_of <$> py_range n))
      (Some <$> ((λ _, radar) <$> py_range n)) in
  ((n ≤ 0)%Z →
     result = inl (ValueError "Time series data cannot be empty")) ∧
  ((1 ≤ n)%Z →
     ∃ records,
       result = inr records ∧
       length records = Z.to_nat n ∧
       records ≠ [] ∧
       post_flood_of records fd = records ∧
       ∀ i, (i < Z.to_nat n)%nat →
         records !! i
         = Some {| date := add_days fd (Z.of_nat i * 30);
                   mean_ndvi := nanmean (frame_of i);
                   std_ndvi := nanstd (frame_of i);
                   mean_ndwi := Some (nanmean (ndwi_of i));
                   mean_vv_backscatter := Some (nanmean (vv_db radar)) |}).
Proof.
  intros result. subst result. split.
  - intros Hn. unfold acquisition_dates. by rewrite (py_range_nonpos n Hn).
  - intros Hn.
    assert (HN : (0 < Z.to_nat n)%nat) by lia.
    assert (Hrange : py_range n ≠ []).
    { unfold py_range. destruct (Z.to_nat n); [lia|done]. }
    assert (Hlr : length (py_range n) = Z.to_nat n).
    { unfold py_range. by rewrite length_seq. }
    destruct (process_time_series_records nanmean nanstd
                (acquisition_dates fd n) (frame_of <$> py_range n)
                (Some <$> (ndwi_of <$> py_range n))
                (Some <$> ((λ _, radar) <$> py_range n)))
      as (records & Hres & Hlen & Hlook).
    { unfold acquisition_dates. intros E. by apply fmap_nil_inv in E. }
    { intros E. by apply fmap_nil_inv in E. }
    unfold acquisition_dates in Hlen. rewrite !length_fmap, Hlr in Hlen.
    rewrite Nat.min_id in Hlen.
    assert (Hrec : ∀ i, (i < Z.to_nat n)%nat →
      records !! i
      = Some {| date := add_days fd (Z.of_nat i * 30);
                mean_ndvi := nanmean (frame_of i);
                std_ndvi := nanstd (frame_of i);
                mean_ndwi := Some (nanmean (ndwi_of i));
                mean_vv_backscatter := Some (nanmean (vv_db radar)) |}).
    { intros i Hi.
      rewrite (Hlook i (add_days fd (Z.of_nat i * 30)) (frame_of i)).
      - rewrite !list_lookup_fmap, (py_range_lookup n i Hi). done.
      - unfold acquisition_dates.
        by rewrite list_lookup_fmap, (py_range_lookup n i Hi).
      - by rewrite list_lookup_fmap, (py_range_lookup n i Hi). }
    exists records. split; [done|]. split; [done|].
    split; [by destruct records; [cbn in Hlen; lia|]|]. split; [|done].
    apply post_flood_of_all, Forall_lookup. intros i rec Hi.
    assert (Hlt : (i < Z.to_nat n)%nat).
    { rewrite <- Hlen. by eapply lookup_lt_Some. }
    rewrite (Hrec i Hlt) in Hi. injection Hi as <-. cbn.
    apply add_days_ge. lia.
Qed.

(** The metrics of a series whose records are all dated on or after the
    flood. *)
Lemma metrics_all_post_flood ts fd :
  ts ≠ [] → post_flood_of ts fd = ts →
  let m := calculate_recovery_metrics polyfit_slope ts fd in
  has_all_fields m ∧
  (∃ rec, last ts = Some rec ∧
          m !! "current_ndvi" = Some (PyFloat (mean_ndvi rec))) ∧
  (length ts = 1%nat →
     m !! "recovery_rate" = Some (PyFloat lit_0) ∧
     m !! "time_to_recovery_days" = Some PyNone).
Proof.
  intros Hne Hall m. subst m.
  destruct (metrics_nonempty polyfit_slope ts fd) as (rec & Hlast & ->).
  { by rewrite Hall. }
  rewrite Hall in *.
  pose proof (recovery_metrics_of_lookup polyfit_slope lit_0_6 ts rec fd)
    as (H1 & H2 & H3 & H4 & H5).
  unfold has_all_fields. rewrite H1, H2, H3, H4, H5.
  split; [repeat split; by eexists|]. split; [by exists rec|].
  intros Hlen. unfold recovery_rate_of, days_to_recovery_of.
  rewrite Hlen. by rewrite bool_decide_eq_false_2 by lia.
Qed.

(** X13.  V2's [process_flood_event] raises the ValueError of the
    aggregator when [num_time_steps <= 0] (the series is empty) and
    returns otherwise: [num_time_steps] dates and records, the [i]-th
    dated [30 * i] days after the flood, each with a mean NDWI and with
    the same mean VV backscatter (that of the raw VV band); every record
    is post-flood, so the recovery metrics hold all five fields; with one
    time step the recovery rate is 0 and there is no estimate. *)
Theorem process_flood_event_spec rng fd (n : Z) :
  let out := process_flood_event nanmean nanstd polyfit_slope pow10 rng fd n in
  ((n ≤ 0)%Z → out = inl (ValueError "Time series data cannot be empty")) ∧
  ((1 ≤ n)%Z →
     ∃ ev,
       out = inr ev ∧
       length (fe_dates ev) = Z.to_nat n ∧
       length (fe_time_series ev) = Z.to_nat n ∧
       (∀ i, (i < Z.to_nat n)%nat →
          ∃ rec,
            fe_time_series ev !! i = Some rec ∧
            fe_dates ev !! i = Some (date rec) ∧
            date rec = add_days fd (Z.of_nat i * 30) ∧
            is_Some (mean_ndwi rec) ∧
            mean_vv_backscatter rec
              = Some (nanmean (simulate_backscatter (rand_vv rng)))) ∧
       post_flood_of (fe_time_series ev) fd = fe_time_series ev ∧
       has_all_fields (fe_recovery_metrics ev) ∧
       (n = 1%Z →
          fe_recovery_metrics ev !! "recovery_rate" = Some (PyFloat lit_0) ∧
          fe_recovery_metrics ev !! "time_to_recovery_days" = Some PyNone)).
Proof.
  intros out. subst out. unfold process_flood_event. cbv zeta.
  set (ndvi := calculate_ndvi _ _). set (ndwi := calculate_ndwi _ _).
  set (radar := calculate_radar_backscatter _ _ _).
  destruct (pipeline_time_series fd n
              (λ i, noisy_frame ndvi (normal_ndvi rng i) i n)
              (λ i, noisy_frame ndwi (normal_ndwi rng i) i n) radar)
    as [Herr Hok].
  split.
  - intros Hn. by rewrite (Herr Hn).
  - intros Hn. destruct (Hok Hn) as (records & -> & Hlen & Hne & Hall & Hrec).
    eexists. split; [done|]. cbn [fe_dates fe_time_series fe_recovery_metrics].
    destruct (metrics_all_post_flood records fd Hne Hall)
      as (Hfields & _ & Hone).
    split; [|split; [done|split; [|split; [done|split; [done|]]]]].
    + unfold acquisition_dates, py_range. by rewrite length_fmap, length_seq.
    + intros i Hi. eexists. split; [by apply Hrec|]. cbn.
      split; [|split; [done|split; [by eexists|done]]].
      unfold acquisition_dates.
      by rewrite list_lookup_fmap, (py_range_lookup n i Hi).
    + intros ->. apply Hone. by rewrite Hlen.
Qed.

(** X14.  V3's [process_flood_event_ai] raises the aggregator's ValueError
    when [num_time_steps <= 0], before any fit, and otherwise returns
    [num_time_steps] records, the [i]-th dated [30 * i] days after the
    flood; the NDVI frames are passed as the NDWI series too, so every
    record's mean NDWI equals its mean NDVI; the recovery metrics hold all
    five fields, with or without the fitter. *)
Theorem process_flood_event_ai_series kmf rng fd (n : Z) :
  let out := process_flood_event_ai nanmean nanstd polyfit_slope pow10
                                    kmf rng fd n in
  ((n ≤ 0)%Z → out = inl (ValueError "Time series data cannot be empty")) ∧
  ((1 ≤ n)%Z →
     ∃ ev log,
       out = inr (ev, log) ∧
       length (ai_time_series ev) = Z.to_nat n ∧
       (∀ i rec, ai_time_series ev !! i = Some rec →
          date rec = add_days fd (Z.of_nat i * 30) ∧
          mean_ndwi rec = Some (mean_ndvi rec)) ∧
       has_all_fields (ai_recovery_metrics ev) ∧
       (n = 1%Z →
          ai_recovery_metrics ev !! "recovery_rate" = Some (PyFloat lit_0) ∧
          ai_recovery_metrics ev !! "time_to_recovery_days" = Some PyNone)).
Proof.
  intros out. subst out. unfold process_flood_event_ai. cbv zeta.
  set (baseline := calculate_ndvi _ _).
  set (radar := calculate_radar_backscatter _ _ _).
  set (frame_of := λ i, recovery_frame baseline (normal_ndvi rng i) i n).
  destruct (pipeline_time_series fd n frame_of frame_of radar)
    as [Herr Hok].
  split.
  - intros Hn. by rewrite (Herr Hn).
  - intros Hn. destruct (Hok Hn) as (records & -> & Hlen & Hne & Hall & Hrec).
    eexists _, _. split; [done|].
    cbn [ai_time_series ai_recovery_metrics].
    destruct (metrics_all_post_flood records fd Hne Hall)
      as (Hfields & _ & Hone).
    split; [done|]. split; [|split; [done|]].
    + intros i rec Hi.
      assert (Hlt : (i < Z.to_nat n)%nat).
      { rewrite <- Hlen. by eapply lookup_lt_Some. }
      rewrite (Hrec i Hlt) in Hi. by injection Hi as <-.
    + intros ->. apply Hone. by rewrite Hlen.
Qed.

(** X15.  In V3's pipeline with at least one time step: without the fitter
    the survival metrics are None and nothing is fitted, the rest of the
    result being returned all the same; with the fitter the fit is called
    exactly once, on the [200 * 200] masked pixels of the 500 by 500
    grid, and the returned recovery map has that shape. *)
Theorem process_flood_event_ai_survival kmf rng fd (n : Z) :
  (1 ≤ n)%Z →
  ∃ ev log,
    process_flood_event_ai nanmean nanstd polyfit_slope pow10 kmf rng fd n
      = inr (ev, log) ∧
    (kmf = None → ai_metrics ev = None ∧ log = []) ∧
    (∀ fitter, kmf = Some fitter →
       ∃ res durations events,
         ai_metrics ev = Some res ∧
         log = [FitCall durations events] ∧
         length durations = (200 * 200)%nat ∧
         length events = (200 * 200)%nat ∧
         median_recovery_time res = fitter durations events ∧
         shape (recovery_map res) = (sim_height, sim_width)).
Proof.
  intros Hn. unfold process_flood_event_ai. cbv zeta.
  set (baseline := calculate_ndvi _ _).
  set (radar := calculate_radar_backscatter _ _ _).
  set (frame_of := λ i, recovery_frame baseline (normal_ndvi rng i) i n).
  destruct (pipeline_time_series fd n frame_of frame_of radar)
    as [_ Hok].
  destruct (Hok Hn) as (records & -> & _).
  destruct kmf as [fitter|].
  - unfold run_survival_analysis. cbv zeta.
    set (stack := stack_frames baseline frame_of n).
    set (thr := arr_map (λ b, mul b lit_0_9) baseline).
    pose proof (survival_confidence fitter stack thr)
      as (Hmap & Hl1 & Hl2 & Hpos & _).
    cbv zeta in Hmap, Hl1, Hl2, Hpos.
    assert (Hcount :
      masked_count (make_flood_mask (height stack) (width stack))
                   (height stack) (width stack) = (200 * 200)%nat).
    { rewrite masked_count_formula. reflexivity. }
    rewrite Hcount in Hl1, Hl2, Hpos.
    destruct Hpos as (_ & Hmed & Hlog); [lia|].
    assert (Hshape : shape (recovery_map
                              (survival_of_threshold fitter stack thr).1)
                     = (sim_height, sim_width)).
    { rewrite Hmap. apply (scan_steps_shape stack). }
    revert Hmed Hlog Hshape.
    generalize (survival_of_threshold fitter stack thr).
    intros out Hmed Hlog Hshape. cbn [fst snd].
    eexists _, _. split; [reflexivity|]. cbn [ai_metrics].
    split; [intros [=]|].
    intros fitter' [= <-].
    exists out.1, (mask_select (event_time_scan stack thr
                     (make_flood_mask (height stack) (width stack))).1
                     (make_flood_mask (height stack) (width stack))),
           (mask_select (event_time_scan stack thr
                     (make_flood_mask (height stack) (width stack))).2
                     (make_flood_mask (height stack) (width stack))).
    split; [reflexivity|]. split; [exact Hlog|]. split; [exact Hl1|].
    split; [exact Hl2|]. split; [exact Hmed|exact Hshape].
  - eexists _, _. split; [reflexivity|]. cbn [ai_metrics].
    split; [intros _; split; reflexivity|]. intros fitter [=].
Qed.

End PipelineFacts.


Lemma process_flood_event_ai_survival_witness :
  ∃ ev log,
    process_flood_event_ai nanmean_exact (λ _, lit_0) ols_slope (λ x, x)
      (Some kaplan_meier) sample_rng (day 0) 3 = inr (ev, log) ∧
    (Some kaplan_meier = None → ai_metrics ev = None ∧ log = []) ∧
    (∀ fitter, Some kaplan_meier = Some fitter →
       ∃ res durations events,
         ai_metrics ev = Some res ∧
         log = [FitCall durations events] ∧
         length durations = (200 * 200)%nat ∧
         length events = (200 * 200)%nat ∧
         median_recovery_time res = fitter durations events ∧
         shape (recovery_map res) = (sim_height, sim_width)).
Proof.
  apply (process_flood_event_ai_survival nanmean_exact (λ _, lit_0) ols_slope
           (λ x, x) (Some kaplan_meier) sample_rng (day 0) 3).
  lia.
Defined.

(** * Where the code departs from its specification *)

(** ** Index calculator on unsigned 16-bit bands *)

Lemma integer_ratio_sign (A B : Z) :
  (0 < B)%Z →
  let q := Q2Qc (inject_Z A) / Q2Qc (inject_Z B) in
  ((0 < A)%Z → 0 < q) ∧ ((A < 0)%Z → q < 0) ∧ ((B < A)%Z → 1 < q).
Proof.
  intros HB q. subst q.
  assert (HBq : (0 < inject_Z B)%Q).
  { replace 0%Q with (inject_Z 0) by done. by rewrite <- Zlt_Qlt. }
  unfold Qclt, Qcdiv, Qcmult, Qcinv. cbn [this Q2Qc].
  rewrite !Qred_correct. repeat split; intros HA.
  - apply Qlt_shift_div_l; [done|]. rewrite Qmult_0_l.
    replace 0%Q with (inject_Z 0) by done. by rewrite <- Zlt_Qlt.
  - apply Qlt_shift_div_r; [done|]. rewrite Qmult_0_l.
    replace 0%Q with (inject_Z 0) by done. by rewrite <- Zlt_Qlt.
  - apply Qlt_shift_div_l; [done|]. rewrite Qmult_1_l.
    by rewrite <- Zlt_Qlt.
Qed.

Lemma integer_nonzero (B : Z) : (0 < B)%Z → Q2Qc (inject_Z B) ≠ 0.
Proof.
  intros HB E. apply Q2Qc_eq_iff in E. unfold Qeq in E. cbn in E. lia.
Qed.

(** C6.  The claim fails on unsigned 16-bit bands, which are finite,
    non-negative grids: at a cell where the red value [x] exceeds the
    near-infrared value [y] (with [x + y < 65536], so that the sum does
    not wrap) the difference [nir - red] wraps around, and
    [calculate_ndvi] returns [(65536 + y - x) / (y + x)], a positive
    number, where the claim requires the negative [(y - x) / (y + x)];
    the output exceeds 1 whenever [2 x < 65536]. *)
Theorem calculate_ndvi_uint16_wraps (red_band nir_band : ndarray Z)
    (r c : nat) (x y : Z) :
  cell red_band r c = x → cell nir_band r c = y →
  (0 ≤ y)%Z → (y < x)%Z → (x + y < 65536)%Z →
  let v := cell (calculate_ndvi_dtype (UInt16Band red_band)
                                      (UInt16Band nir_band)) r c in
  let wrapped := Q2Qc (inject_Z (65536 + y - x)) / Q2Qc (inject_Z (y + x)) in
  let intended := Q2Qc (inject_Z (y - x)) / Q2Qc (inject_Z (y + x)) in
  v = Fin wrapped ∧
  0 < wrapped ∧
  intended < 0 ∧
  v ≠ Fin intended ∧
  ((2 * x < 65536)%Z → 1 < wrapped).
Proof.
  intros Hx Hy Hy0 Hlt Hsum v wrapped intended.
  assert (Hden : (0 < y + x)%Z) by lia.
  destruct (integer_ratio_sign (65536 + y - x) (y + x) Hden)
    as (Hpos & _ & Hbig).
  destruct (integer_ratio_sign (y - x) (y + x) Hden) as (_ & Hneg & _).
  assert (Hv : v = Fin wrapped).
  { subst v wrapped. unfold calculate_ndvi_dtype, calculate_ndvi_uint16.
    cbn. rewrite Hx, Hy. unfold uint16_add, uint16_sub, uint16_modulus.
    rewrite (Z.mod_small (y + x)) by lia.
    replace ((y - x) mod 65536)%Z with (65536 + y - x)%Z.
    2:{ apply (Z.mod_unique _ _ (-1)); lia. }
    destruct (Z.eqb_spec (y + x) 0) as [E|E]; [lia|].
    cbn. rewrite decide_False by (by apply integer_nonzero). done. }
  assert (Hw : 0 < wrapped) by (apply Hpos; lia).
  assert (Hi : intended < 0) by (apply Hneg; lia).
  repeat split; try done.
  - rewrite Hv. intros E.
    apply (f_equal (λ v, match v with Fin q => q | NaN => 0 end)) in E.
    cbv beta iota in E. rewrite E in Hw.
    by apply (Qclt_not_le _ _ Hw), Qclt_le_weak.
  - intros H2. apply Hbig. lia.
Qed.

Lemma calculate_ndvi_uint16_wraps_witness :
  let v := cell (calculate_ndvi_dtype (UInt16Band sample_red_uint16)
                                      (UInt16Band sample_nir_uint16)) 0 0 in
  let wrapped :=
    Q2Qc (inject_Z (65536 + 1000 - 3000)) / Q2Qc (inject_Z (1000 + 3000)) in
  let intended :=
    Q2Qc (inject_Z (1000 - 3000)) / Q2Qc (inject_Z (1000 + 3000)) in
  v = Fin wrapped ∧
  0 < wrapped ∧
  intended < 0 ∧
  v ≠ Fin intended ∧
  ((2 * 3000 < 65536)%Z → 1 < wrapped).
Proof.
  apply (calculate_ndvi_uint16_wraps sample_red_uint16 sample_nir_uint16
           0 0 3000 1000).
  - reflexivity.
  - reflexivity.
  - lia.
  - lia.
  - lia.
Defined.

(** The failing input of C6: red 3000 and near-infrared 1000 give
    63536 / 4000 = 15.884. *)
Example calculate_ndvi_uint16_sample :
  cell (calculate_ndvi_dtype (UInt16Band sample_red_uint16)
                             (UInt16Band sample_nir_uint16)) 0 0
  = Fin (Q2Qc (15884 # 1000)).
Proof. vm_compute. f_equal. apply Qc_is_canon. reflexivity. Qed.

(** ** The recovery rate estimator when the fit raises *)

Section RecoveryRateRaisingFacts.

Variable lstsq_slope : list Z → list float64 → numpy_error + float64.

(** What is returned is the dictionary of [calculate_recovery_metrics]
    for the slope that the fit returned. *)
Lemma metrics_raising_returned ts fd m :
  calculate_recovery_metrics_raising lstsq_slope ts fd = inr m →
  m = calculate_recovery_metrics (returned_slope lstsq_slope) ts fd.
Proof.
  unfold calculate_recovery_metrics_raising, calculate_recovery_metrics.
  destruct (last (post_flood_of ts fd)) as [rec|]; [|by intros [= <-]].
  unfold recovery_metrics_of, recovery_rate_raising, recovery_rate_of,
    returned_slope. cbv zeta.
  case_bool_decide as Hlen.
  - destruct (np_polyfit_slope lstsq_slope _ _) as [e|rate]; [done|].
    by intros [= <-].
  - by intros [= <-].
Qed.

(** The call raises exactly when the fit is reached and raises. *)
Lemma metrics_raising_error ts fd e :
  calculate_recovery_metrics_raising lstsq_slope ts fd = inl e ↔
  (1 < length (post_flood_of ts fd))%nat ∧
  np_polyfit_slope lstsq_slope
    ((λ r, timedelta_days (date r) fd) <$> post_flood_of ts fd)
    (mean_ndvi <$> post_flood_of ts fd) = inl e.
Proof.
  unfold calculate_recovery_metrics_raising, recovery_rate_raising.
  destruct (last (post_flood_of ts fd)) as [rec|] eqn:Hlast.
  - case_bool_decide as Hlen.
    + destruct (np_polyfit_slope lstsq_slope _ _) as [e'|rate].
      * split; [by intros [= ->]|by intros [_ [= ->]]].
      * split; [done|by intros [_ ?]].
    + split; [done|]. intros [? _]. lia.
  - apply last_None in Hlast. rewrite Hlast. cbn. split; [done|].
    intros [? _]. lia.
Qed.

(** On a non-empty post-flood subset on which the call returns, the
    returned time_to_recovery_days is [(0.6 − cur) / rate] when
    [rate > 0] and [cur < 0.6], and None in every other case. *)
Lemma time_to_recovery_when_returned ts fd m :
  post_flood_of ts fd ≠ [] →
  calculate_recovery_metrics_raising lstsq_slope ts fd = inr m →
  ∃ rate cur,
    m !! "recovery_rate" = Some (PyFloat rate) ∧
    m !! "current_ndvi" = Some (PyFloat cur) ∧
    (gtb rate lit_0 = true ∧ ltb cur lit_0_6 = true →
       ∃ ρ κ, rate = Fin ρ ∧ cur = Fin κ ∧ 0 < ρ ∧ κ < Q2Qc (6 # 10) ∧
              m !! "time_to_recovery_days" =
                Some (PyFloat (Fin ((Q2Qc (6 # 10) - κ) / ρ)))) ∧
    (¬ (gtb rate lit_0 = true ∧ ltb cur lit_0_6 = true) →
       m !! "time_to_recovery_days" = Some PyNone).
Proof.
  intros Hne Hm. apply metrics_raising_returned in Hm. subst m.
  destruct (time_to_recovery_of_rate (returned_slope lstsq_slope) ts fd Hne)
    as (rate & cur & H1 & H2 & _ & H4 & H5).
  by exists rate, cur.
Qed.

(** C3.  The claim fails where the fit itself raises: when two or more
    records are dated on or after the flood and all of them fall within
    the day of the flood, every [days_since_flood] is 0,
    [np.polyfit] raises LinAlgError and [calculate_recovery_metrics]
    raises it, where the claim has a dictionary returned with
    time_to_recovery_days None. *)
Theorem same_day_fit_raises ts fd :
  (2 ≤ length (post_flood_of ts fd))%nat →
  Forall (λ r, timedelta_days (date r) fd = 0%Z) (post_flood_of ts fd) →
  calculate_recovery_metrics_raising lstsq_slope ts fd
  = inl (LinAlgError "SVD did not converge in Linear Least Squares").
Proof.
  intros Hlen Hday. apply metrics_raising_error. split; [lia|].
  unfold np_polyfit_slope.
  assert (Hall : forallb (λ x, (x =? 0)%Z)
                   ((λ r, timedelta_days (date r) fd) <$> post_flood_of ts fd)
                 = true).
  { clear Hlen. induction Hday as [|r l Hr _ IH]; [done|].
    cbn. rewrite Hr. cbn. exact IH. }
  by rewrite Hall.
Qed.

End RecoveryRateRaisingFacts.

Lemma same_day_fit_raises_witness :
  calculate_recovery_metrics_raising sample_lstsq same_day_series (day 0)
  = inl (LinAlgError "SVD did not converge in Linear Least Squares").
Proof.
  apply (same_day_fit_raises sample_lstsq same_day_series (day 0)).
  - vm_compute. lia.
  - unfold same_day_series, post_flood_of. cbn [filter list_filter].
    rewrite !decide_True by reflexivity. repeat constructor.
Defined.
